(** * Verification model of [analyzeSyntheticLabValues.py]

    A shallow embedding of the lab-value pipeline: loading a CSV table,
    filtering it by LOINC codes and positive values, aggregating it in
    chunks of [rows_per_group] rows, serialising the aggregate as CSV,
    rendering the density plot and packaging everything into a ZIP file.

    Numeric cells are modelled as exact rationals [Q]; a pandas [NaN] cell
    is [CNA].  The two pieces of library code whose output is opaque bytes
    (matplotlib/seaborn rendering and Python's float [repr]) are Section
    variables. *)

From Stdlib Require Import List String Ascii QArith Lia Arith Bool Sorting Permutation.

Import ListNotations.
Open Scope string_scope.
Open Scope nat_scope.

(** ** Errors and results *)

(** The Python exceptions the script can raise. *)
Inductive error : Type :=
  | KeyError (col : string)
  | TypeError
  | ValueError (msg : string)
  | FileNotFoundError (path : string)
  | ParserError (line : nat)
  | EmptyDataError
  | OSError (path : string).

Inductive result (A : Type) : Type :=
  | Ok (a : A)
  | Err (e : error).

Arguments Ok {A} a.
Arguments Err {A} e.

Definition bind {A B} (m : result A) (k : A -> result B) : result B :=
  match m with
  | Ok a => k a
  | Err e => Err e
  end.

Notation "'let!' x := m 'in' k" := (bind m (fun x => k))
  (at level 200, x name, m at level 100, k at level 200).

(** ** Data frames *)

(** A cell of a pandas data frame after [read_csv]: text (object dtype),
    a number, a parsed date (a [datetime64] timestamp, in days), or a
    missing value ([NaN] / [NaT]). *)
Inductive cell : Type :=
  | CStr (s : string)
  | CNum (q : Q)
  | CDate (d : Z)
  | CNA.

(** A row: its index label and its cells, keyed by column name. *)
Record row : Type := mkRow {
  row_index : nat;
  row_cells : list (string * cell)
}.

(** A data frame: its column labels and its rows, in frame order. *)
Record frame : Type := mkFrame {
  columns : list string;
  rows : list row
}.

Definition has_column (c : string) (cols : list string) : bool :=
  existsb (String.eqb c) cols.

(** [row[c]]; a column absent from the row reads as missing. *)
Definition get_cell (c : string) (r : row) : cell :=
  match find (fun kv => String.eqb c (fst kv)) (row_cells r) with
  | Some (_, v) => v
  | None => CNA
  end.

(** ** [filter_lab_data] *)

(** [Series.isin(loinc_codes)] on one cell. *)
Definition cell_isin (codes : list string) (v : cell) : bool :=
  match v with
  | CStr s => existsb (String.eqb s) codes
  | _ => false
  end.

(** [Series > 0] on one cell: [NaN > 0] is [False]; comparing text with
    an integer raises [TypeError]. *)
Definition cell_gt0 (v : cell) : result bool :=
  match v with
  | CNum q => Ok (negb (Qle_bool q 0))
  | CDate _ => Err TypeError
  | CNA => Ok false
  | CStr _ => Err TypeError
  end.

(** [frame[frame[col] > 0]]: the whole mask is computed, then applied. *)
Fixpoint select_gt0 (col : string) (rs : list row) : result (list row) :=
  match rs with
  | [] => Ok []
  | r :: rs' =>
      let! b := cell_gt0 (get_cell col r) in
      let! kept := select_gt0 col rs' in
      Ok (if b then r :: kept else kept)
  end.

Definition code_col : string := "Observation.code".

(** [df[df["Observation.code"].isin(loinc_codes)].copy()]. *)
Definition select_codes (df : frame) (loinc_codes : list string)
  : result frame :=
  if has_column code_col (columns df) then
    Ok (mkFrame (columns df)
          (filter (fun r => cell_isin loinc_codes (get_cell code_col r))
             (rows df)))
  else Err (KeyError code_col).

(** [filtered[filtered[value_col] > 0]]. *)
Definition select_positive (filtered : frame) (value_col : string)
  : result frame :=
  if has_column value_col (columns filtered) then
    let! kept := select_gt0 value_col (rows filtered) in
    Ok (mkFrame (columns filtered) kept)
  else Err (KeyError value_col).

Definition filter_lab_data (df : frame) (loinc_codes : list string)
    (value_col : string) : result frame :=
  let! filtered := select_codes df loinc_codes in
  select_positive filtered value_col.

(** ** [generate_row_group_density] *)

(** [df.sort_index()]: an insertion sort on the index labels.  pandas'
    default sort is not stable; the two agree on frames with distinct
    labels, and the claims on row order below are about such frames. *)
Fixpoint insert_by_index (r : row) (rs : list row) : list row :=
  match rs with
  | [] => [r]
  | x :: xs =>
      if row_index r <=? row_index x then r :: x :: xs
      else x :: insert_by_index r xs
  end.

Fixpoint sort_index (rs : list row) : list row :=
  match rs with
  | [] => []
  | r :: rs' => insert_by_index r (sort_index rs')
  end.

(** [.reset_index(drop=True)]: the rows are relabelled [0, 1, ...]. *)
Fixpoint reset_index_from (i : nat) (rs : list row) : list row :=
  match rs with
  | [] => []
  | r :: rs' => mkRow i (row_cells r) :: reset_index_from (S i) rs'
  end.

Definition reset_index (rs : list row) : list row := reset_index_from 0 rs.

(** [range(start, stop, step)] for a positive [step]; [fuel] bounds the
    number of elements, [stop - start] always suffices. *)
Fixpoint range_go (fuel start stop step : nat) : list nat :=
  match fuel with
  | 0 => []
  | S fuel' =>
      if start <? stop then start :: range_go fuel' (start + step) stop step
      else []
  end.

Definition py_range (start stop step : nat) : result (list nat) :=
  if step =? 0 then Err (ValueError "range() arg 3 must not be zero")
  else Ok (range_go (stop - start) start stop step).

(** [df.iloc[start:end]]. *)
Definition iloc (rs : list row) (start end_ : nat) : list row :=
  firstn (end_ - start) (skipn start rs).

(** The numeric values of a column, skipping [NaN] as [Series.mean]
    does ([skipna=True]).  Text and date cells are outside the Q-valued
    means of this model and are reported as [TypeError]; they never reach
    the aggregator from [filter_lab_data]. *)
Fixpoint column_values (col : string) (rs : list row) : result (list Q) :=
  match rs with
  | [] => Ok []
  | r :: rs' =>
      let! vs := column_values col rs' in
      match get_cell col r with
      | CNum q => Ok (q :: vs)
      | CNA => Ok vs
      | _ => Err TypeError
      end
  end.

Definition Qsum (xs : list Q) : Q := fold_right Qplus 0%Q xs.

(** [chunk[value_col].mean()]: [None] is [NaN] (no value to average). *)
Definition series_mean (col : string) (rs : list row) : result (option Q) :=
  let! vs := column_values col rs in
  match vs with
  | [] => Ok None
  | _ => Ok (Some (Qsum vs / inject_Z (Z.of_nat (List.length vs)))%Q)
  end.

(** The body of [for start in range(0, len(df), rows_per_group)]. *)
Fixpoint chunk_loop (cols : list string) (rs : list row) (value_col : string)
    (rows_per_group : nat) (starts : list nat) : result (list (option Q)) :=
  match starts with
  | [] => Ok []
  | start :: more =>
      let end_ := start + rows_per_group in
      let chunk := iloc rs start end_ in
      if List.length chunk =? 0 then
        chunk_loop cols rs value_col rows_per_group more
      else if negb (has_column value_col cols) then Err (KeyError value_col)
      else
        let! mean_val := series_mean value_col chunk in
        let! group_means := chunk_loop cols rs value_col rows_per_group more in
        Ok (mean_val :: group_means)
  end.

(** An aggregate record [(group_index, group_mean)]. *)
Definition record : Type := (nat * option Q)%type.

(** The frame [grouped] of [generate_row_group_density]. *)
Definition group_records (df : frame) (value_col : string)
    (rows_per_group : nat) : result (list record) :=
  let rs := reset_index (sort_index (rows df)) in
  let! starts := py_range 0 (List.length rs) rows_per_group in
  let! group_means := chunk_loop (columns df) rs value_col rows_per_group starts in
  Ok (combine (seq 0 (List.length group_means)) group_means).

(** Decimal text of a natural number. *)
Fixpoint digits_go (fuel n : nat) (acc : string) : string :=
  match fuel with
  | 0 => acc
  | S fuel' =>
      let acc' := String (ascii_of_nat (48 + n mod 10)) acc in
      if n <? 10 then acc' else digits_go fuel' (n / 10) acc'
  end.

Definition str_of_nat (n : nat) : string := digits_go (S n) n EmptyString.

Definition newline : string := String (ascii_of_nat 10) EmptyString.

Definition csv_header : string := String.append "group_index,group_mean" newline.

Section Pipeline.

(** [repr] of a Python float, as [DataFrame.to_csv] writes it. *)
Variable fmt_float : Q -> string.

(** The PNG bytes of [sns.kdeplot] of the group means, saved by
    [fig.savefig(..., format="png", dpi=200)], given title and x label. *)
Variable render : string -> string -> list (option Q) -> string.

(** [na_rep=EmptyString]: a [NaN] mean is written as the empty field. *)
Definition fmt_mean (m : option Q) : string :=
  match m with
  | Some q => fmt_float q
  | None => EmptyString
  end.

Definition csv_line (r : record) : string :=
  String.append (str_of_nat (fst r))
    (String.append "," (String.append (fmt_mean (snd r)) newline)).

(** [grouped.to_csv(csv_buffer, index=False)]. *)
Definition to_csv (grouped : list record) : string :=
  String.append csv_header (fold_right String.append EmptyString (map csv_line grouped)).

Definition generate_row_group_density (df : frame) (value_col title xlabel : string)
    (rows_per_group : nat) : result (string * string) :=
  let! grouped := group_records df value_col rows_per_group in
  let png :=
    match grouped with
    | [] => EmptyString
    | _ => render title xlabel (map snd grouped)
    end in
  Ok (to_csv grouped, png).

Definition process_alp (df : frame) (value_col : string) : result (string * string) :=
  let alp_codes : list string := ["109532-2"; "1783-0"; "59164-4"; "16337-8"] in
  let! filtered_df := filter_lab_data df alp_codes value_col in
  generate_row_group_density filtered_df value_col
    "ALP Grouped Mean Density" "Mean ALP value (mmol/L, per 10 rows)" 10.

Definition process_ldl (df : frame) (value_col : string) : result (string * string) :=
  let ldl_codes : list string := ["13457-7"; "53133-5"; "96258-9"; "69419-0"] in
  let! filtered_df := filter_lab_data df ldl_codes value_col in
  generate_row_group_density filtered_df value_col
    "LDL Grouped Mean Density" "Mean LDL value (U/L, per 10 rows)" 10.

(** A ZIP archive: its entries [(name, bytes)] in writing order. *)
Definition archive : Type := list (string * string).

(** [create_zip_output]: [zipfile.ZipFile(zip_path, "w", ...)] opens the
    destination first; when it cannot be opened for writing, [open] raises
    an [OSError] for [zip_path] (its subclass, [FileNotFoundError],
    [IsADirectoryError], [PermissionError], ..., depends on the file system
    and is not modelled).  Every [writestr] appends an entry. *)
Definition create_zip_output (df : frame) (zip_path : string)
    (writable : bool) (value_col : string) : result archive :=
  if negb writable then Err (OSError zip_path)
  else
    let! alp := process_alp df value_col in
    let zf : archive := [("alp_counts_synth.csv", fst alp);
               ("alp_density_synth.png", snd alp)] in
    let! ldl := process_ldl df value_col in
    Ok (app zf [("ldl_counts_synth.csv", fst ldl);
               ("ldl_density_synth.png", snd ldl)]).

End Pipeline.

(** ** [load_data] *)

(** A CSV file after tokenising: its header line and its records, the
    record [k] (from 0) on line [k + 2] of the file; a field that is empty, or one of [read_csv]'s default NA
    strings, is [None]. *)
Record csv_file : Type := mkCsv {
  header : list string;
  records : list (list (option string))
}.

(** The files readable by the process. *)
Definition filesystem : Type := string -> option csv_file.

Definition date_columns : list string :=
  ["Patient.birthDate"; "Condition.recordedDate";
   "Observation.effective.x.extension.QuelleKlinischesBezugsdatum"].

(** *** Column names: [TextReader._get_header] *)

(** [counts.get(col, 0)]; the newest binding comes first. *)
Fixpoint count_of (counts : list (string * nat)) (c : string) : nat :=
  match counts with
  | [] => 0
  | (k, n) :: cs => if String.eqb k c then n else count_of cs c
  end.

(** [this_header[i] = col]. *)
Fixpoint replace_nth {A} (i : nat) (x : A) (l : list A) : list A :=
  match l, i with
  | [], _ => []
  | _ :: l', 0 => x :: l'
  | y :: l', S i' => y :: replace_nth i' x l'
  end.

(** An empty name becomes ["Unnamed: i"]. *)
Definition unnamed (h : list string) : list string :=
  map (fun ic => if String.eqb (snd ic) EmptyString
                 then String.append "Unnamed: " (str_of_nat (fst ic)) else snd ic)
    (combine (seq 0 (List.length h)) h).

(** [col_loop_order]: the named columns first, then the unnamed ones. *)
Definition loop_order (h : list string) : list nat :=
  app (filter (fun i => negb (String.eqb (nth i h EmptyString) EmptyString))
         (seq 0 (List.length h)))
      (filter (fun i => String.eqb (nth i h EmptyString) EmptyString)
         (seq 0 (List.length h))).

(** [while cur_count > 0: counts[old_col] = cur_count + 1;
    col = f"{old_col}.{cur_count}"; ...]; [fuel] bounds the loop.  Every
    name counted is a name of the header, so each candidate but the last
    is a header name, and [cur_count] grows from one to the next: the loop
    stops within [S (length hdr)] rounds. *)
Fixpoint mangle_loop (fuel : nat) (old_col col : string) (cur : nat) (hdr : list string)
    (counts : list (string * nat)) : string * nat * list (string * nat) :=
  match fuel with
  | 0 => (col, cur, counts)
  | S fuel' =>
      if cur =? 0 then (col, cur, counts)
      else
        let counts' := (old_col, S cur) :: counts in
        let col' := String.append old_col (String.append "." (str_of_nat cur)) in
        if has_column col' hdr
        then mangle_loop fuel' old_col col' (S cur) hdr counts'
        else mangle_loop fuel' old_col col' (count_of counts' col') hdr counts'
  end.

(** The loop over [col_loop_order], renaming in place. *)
Fixpoint mangle_go (order : list nat) (hdr : list string) (counts : list (string * nat))
  : list string :=
  match order with
  | [] => hdr
  | i :: order' =>
      let col := nth i hdr EmptyString in
      let '(col', cur', counts') :=
        mangle_loop (S (List.length hdr)) col col (count_of counts col) hdr counts in
      mangle_go order' (replace_nth i col' hdr) ((col', S cur') :: counts')
  end.

(** The column names of the frame: duplicates become [a.1], [a.2], ... *)
Definition mangle_header (h : list string) : list string :=
  mangle_go (loop_order h) (unnamed h) [].

(** *** [parse_dates] presence: [_validate_parse_dates_presence] *)

(** Python's [sorted] on strings (code point order). *)
Fixpoint insert_string (s : string) (l : list string) : list string :=
  match l with
  | [] => [s]
  | x :: xs => if String.leb s x then s :: x :: xs else x :: insert_string s xs
  end.

Fixpoint sort_strings (l : list string) : list string :=
  match l with
  | [] => []
  | s :: l' => insert_string s (sort_strings l')
  end.

(** [", ".join(...)]. *)
Definition join_comma (l : list string) : string :=
  match l with
  | [] => EmptyString
  | s :: l' => fold_left (fun acc x => String.append acc (String.append ", " x)) l' s
  end.

Definition missing_dates (names : list string) : list string :=
  sort_strings (filter (fun c => negb (has_column c names)) date_columns).

Definition parse_dates_message (missing : list string) : string :=
  String.append "Missing column provided to 'parse_dates': '"
    (String.append (join_comma missing) "'").

(** *** Width of the records and the implicit index *)

(** The number of fields the tokenizer expects: the header's, or the first
    record's when it is longer (its extra leading fields are then the
    index, [leading_cols]). *)
Definition data_width (f : csv_file) : nat :=
  match records f with
  | [] => List.length (header f)
  | r :: _ => Nat.max (List.length (header f)) (List.length r)
  end.

Definition leading_cols (f : csv_file) : nat := data_width f - List.length (header f).

(** The first record, from [line] on, with more fields than [width]: the
    tokenizer's [Expected width fields in line L]. *)
Fixpoint first_long (width line : nat) (recs : list (list (option string)))
  : option nat :=
  match recs with
  | [] => None
  | r :: rs => if width <? List.length r then Some line else first_long width (S line) rs
  end.

(** *** The loaded frame *)

(** A row index: [read_csv]'s [RangeIndex], or the labels of the implicit
    index columns, one list of cells per row. *)
Inductive frame_index : Type :=
  | RangeIndex
  | LabelIndex (labels : list (list cell)).

(** The frame [read_csv] returns: column names, the cells of each row
    (named as the columns, in column order) and the index. *)
Record loaded : Type := mkLoaded {
  ld_columns : list string;
  ld_cells : list (list (string * cell));
  ld_index : frame_index
}.

Section Loader.

(** The numeric conversion of [read_csv]'s type inference. *)
Variable parse_num : string -> option Q.

(** The date parser applied to the [parse_dates] columns. *)
Variable parse_date : string -> option Z.

Definition is_some {A} (o : option A) : bool :=
  match o with Some _ => true | None => false end.

(** The [j]-th field of a record; short records are padded with [NaN]. *)
Definition field_at (j : nat) (fields : list (option string)) : option string :=
  nth j fields None.

Definition text_cell (f : option string) : cell :=
  match f with Some s => CStr s | None => CNA end.

Definition num_cell (f : option string) : cell :=
  match f with
  | Some s => match parse_num s with Some q => CNum q | None => CNA end
  | None => CNA
  end.

(** dtype inference: a column whose fields all parse as numbers is a
    float column, any other column is an object (text) column. *)
Definition infer_column (fields : list (option string)) : list cell :=
  if forallb (fun f => match f with Some s => is_some (parse_num s) | None => true end)
       fields
  then map num_cell fields
  else map text_cell fields.

(** One field of a column converted to [datetime64]. *)
Definition date_cell (f : option string) : cell :=
  match f with
  | Some s => match parse_date s with Some d => CDate d | None => CNA end
  | None => CNA
  end.

(** [parse_dates] columns skip numeric conversion
    ([_set_noconvert_columns]); a column all of whose fields parse becomes
    a [datetime64] column, otherwise its text is kept. *)
Definition convert_dates (fields : list (option string)) : list cell :=
  if forallb (fun f => match f with Some s => is_some (parse_date s) | None => true end)
       fields
  then map date_cell fields
  else map text_cell fields.

(** The column at field position [j] named [name]. *)
Definition load_column (recs : list (list (option string))) (j : nat) (name : string)
  : list cell :=
  let fields := map (field_at j) recs in
  if has_column name date_columns then convert_dates fields else infer_column fields.

(** The data columns, after the [lead] index fields. *)
Definition load_columns (recs : list (list (option string))) (lead : nat)
    (names : list string) : list (list cell) :=
  map (fun jn => load_column recs (lead + fst jn) (snd jn))
    (combine (seq 0 (List.length names)) names).

Definition row_cells_at (names : list string) (cols : list (list cell)) (i : nat)
  : list (string * cell) :=
  map (fun nc => (fst nc, nth i (snd nc) CNA)) (combine names cols).

(** The labels of the implicit index: the first [lead] fields of each
    record, type-inferred as the other columns. *)
Definition index_labels (recs : list (list (option string))) (lead : nat)
  : list (list cell) :=
  let idx := map (fun k => infer_column (map (field_at k) recs)) (seq 0 lead) in
  map (fun i => map (fun col => nth i col CNA) idx) (seq 0 (List.length recs)).

(** [pd.read_csv(filepath, parse_dates=[...])], C engine: the file is
    opened, the header read and renamed, the [parse_dates] names checked,
    then the records tokenised. *)
Definition load_data (fs : filesystem) (filepath : string) : result loaded :=
  match fs filepath with
  | None => Err (FileNotFoundError filepath)
  | Some f =>
      match header f with
      | [] => Err EmptyDataError
      | _ =>
          let names := mangle_header (header f) in
          match missing_dates names with
          | (_ :: _) as ms => Err (ValueError (parse_dates_message ms))
          | [] =>
              match first_long (data_width f) 3 (tl (records f)) with
              | Some line => Err (ParserError line)
              | None =>
                  let lead := leading_cols f in
                  let cols := load_columns (records f) lead names in
                  Ok (mkLoaded names
                        (map (row_cells_at names cols) (seq 0 (List.length (records f))))
                        (if lead =? 0 then RangeIndex
                         else LabelIndex (index_labels (records f) lead)))
              end
          end
      end
  end.

End Loader.

(** *** Index order *)

(** The order [sort_index] uses on index labels: numbers by value, text in
    code point order, [NaN] last ([na_position="last"]); a level of an
    inferred index holds one kind of value, so kinds are never compared
    with each other in a run. *)
Definition cell_cmp (a b : cell) : comparison :=
  match a, b with
  | CNA, CNA => Eq
  | CNA, _ => Gt
  | _, CNA => Lt
  | CNum x, CNum y => Qcompare x y
  | CStr x, CStr y => String.compare x y
  | CDate x, CDate y => Z.compare x y
  | CNum _, _ => Lt
  | _, CNum _ => Gt
  | CStr _, _ => Lt
  | _, CStr _ => Gt
  end.

(** Lexicographic order of [MultiIndex] labels, level by level. *)
Fixpoint label_cmp (a b : list cell) : comparison :=
  match a, b with
  | [], [] => Eq
  | [], _ => Lt
  | _, [] => Gt
  | x :: a', y :: b' =>
      match cell_cmp x y with
      | Eq => label_cmp a' b'
      | c => c
      end
  end.

(** The number of labels ordered strictly before the label of row [i];
    rows with equal labels get the same number. *)
Definition label_rank (ls : list (list cell)) (i : nat) : nat :=
  let li := nth i ls [] in
  List.length (filter (fun l => match label_cmp l li with Lt => true | _ => false end) ls).

(** The loaded frame as the pipeline sees it: rows in file order, each row
    labelled by the rank of its index label, which keeps the order of the
    labels, all that [sort_index] reads of them. *)
Definition to_frame (ld : loaded) : frame :=
  mkFrame (ld_columns ld)
    (map (fun ic => mkRow (match ld_index ld with
                           | RangeIndex => fst ic
                           | LabelIndex ls => label_rank ls (fst ic)
                           end) (snd ic))
       (combine (seq 0 (List.length (ld_cells ld))) (ld_cells ld))).

(** [main]: both paths are fixed; the result is the archive written. *)
Definition main (parse_num : string -> option Q) (parse_date : string -> option Z)
    (fmt_float : Q -> string) (render : string -> string -> list (option Q) -> string)
    (fs : filesystem) (zip_writable : bool) : result archive :=
  let! ld := load_data parse_num parse_date fs "synth_dataset.csv" in
  create_zip_output fmt_float render (to_frame ld) "lab_density_outputs.zip" zip_writable
    "Observation.value".

(** ** Object identity: [filter_lab_data] on a heap of frames *)

Module Heap.

(** Python frames live in a heap; an object id is a position. *)
Definition store : Type := list frame.

(** A new object: pandas' boolean indexing and [.copy()] both return a
    fresh frame. *)
Definition alloc (s : store) (f : frame) : store * nat := (app s [f], List.length s).

(** [filter_lab_data(df, loinc_codes, value_col)] with [df] the object
    [df_id]; the result is the new store and the id of the returned frame. *)
Definition filter_lab_data_st (s : store) (df_id : nat) (loinc_codes : list string)
    (value_col : string) : result (store * nat) :=
  match nth_error s df_id with
  | None => Err (KeyError value_col) (* a dangling id: unreachable from Python *)
  | Some df =>
      let! selected := select_codes df loinc_codes in
      let (s1, _) := alloc s selected in            (* df[mask] *)
      let (s2, copy_id) := alloc s1 selected in     (* .copy() *)
      match nth_error s2 copy_id with
      | None => Err (KeyError value_col)
      | Some filtered =>
          let! positive := select_positive filtered value_col in
          Ok (alloc s2 positive)                     (* filtered[mask] *)
      end
  end.

End Heap.

(** ** The chunked mean as the spec describes it (Policy A)

    The windows [l[0:W], l[W:2W], ...], [ceil(N/W)] of them, and the
    arithmetic mean of a window's values.  Used to state the claims about
    [group_records]. *)

Definition ceil_div (n w : nat) : nat := (n + w - 1) / w.

Definition spec_windows (w : nat) (l : list row) : list (list row) :=
  map (fun i => firstn w (skipn (i * w) l)) (seq 0 (ceil_div (List.length l) w)).

Definition cell_value (col : string) (r : row) : Q :=
  match get_cell col r with
  | CNum q => q
  | _ => 0%Q
  end.

Definition arith_mean (xs : list Q) : Q :=
  (Qsum xs / inject_Z (Z.of_nat (List.length xs)))%Q.

(** Index order of two rows. *)
Definition index_lt (a b : row) : Prop := row_index a < row_index b.

(** Index order, ties allowed. *)
Definition index_le (a b : row) : Prop := row_index a <= row_index b.

(** The index of a frame read by [read_csv]: [0, 1, ..., n-1]. *)
Definition range_indexed (df : frame) : Prop :=
  map row_index (rows df) = seq 0 (List.length (rows df)).

(** ** Concrete inputs *)

(** An observation row with a code and a value. *)
Definition obs (i : nat) (code : string) (v : cell) : row :=
  mkRow i [("Observation.code", CStr code); ("Observation.value", v)].

(** 25 rows coded [1783-0] (ALP) with values [1, ..., 25]. *)
Definition alp_example_frame : frame :=
  mkFrame ["Observation.code"; "Observation.value"]
    (map (fun i => obs i "1783-0" (CNum (inject_Z (Z.of_nat (S i))))) (seq 0 25)).

(** Rows of both categories, a negative value and a missing value. *)
Definition mixed_frame : frame :=
  mkFrame ["Observation.code"; "Observation.value"]
    [obs 0 "1783-0" (CNum 5); obs 1 "13457-7" (CNum 3); obs 2 "1783-0" (CNum (-2));
     obs 3 "1783-0" CNA; obs 4 "59164-4" (CNum 7)].

(** Stand-ins for the opaque library outputs in concrete runs. *)
Definition sample_repr (q : Q) : string := "1.0".

Definition sample_png (title xlabel : string) (means : list (option Q)) : string :=
  "PNG".

(** The CSV entries of an archive: the entries whose name ends in [.csv]. *)
Definition is_csv_name (name : string) : bool :=
  String.eqb (substring (String.length name - 4) 4 name) ".csv".

Definition csv_entries (r : result archive) : result archive :=
  let! es := r in Ok (filter (fun e => is_csv_name (fst e)) es).

(** A decimal digit. *)
Definition digit_of (a : ascii) : option nat :=
  let n := nat_of_ascii a in
  if (48 <=? n) && (n <=? 57) then Some (n - 48) else None.

Fixpoint parse_digits (acc : nat) (s : string) : option nat :=
  match s with
  | EmptyString => Some acc
  | String a s' =>
      match digit_of a with
      | Some d => parse_digits (acc * 10 + d) s'
      | None => None
      end
  end.

(** A number parser for unsigned integers, enough for the sample files. *)
Definition parse_unsigned (s : string) : option Q :=
  match s with
  | EmptyString => None
  | _ => match parse_digits 0 s with
         | Some n => Some (inject_Z (Z.of_nat n))
         | None => None
         end
  end.

(** A date parser for ISO dates [YYYY-MM-DD], giving [YYYYMMDD]. *)
Definition parse_iso_date (s : string) : option Z :=
  if (String.length s =? 10) && (String.eqb (substring 4 1 s) "-")
     && (String.eqb (substring 7 1 s) "-") then
    match parse_digits 0 (substring 0 4 s), parse_digits 0 (substring 5 2 s),
          parse_digits 0 (substring 8 2 s) with
    | Some y, Some m, Some d =>
        if (1 <=? m) && (m <=? 12) && (1 <=? d) && (d <=? 31)
        then Some ((Z.of_nat y * 100 + Z.of_nat m) * 100 + Z.of_nat d)%Z else None
    | _, _, _ => None
    end
  else None.

(** A frame whose value column holds text in an accepted-code row. *)
Definition text_value_frame : frame :=
  mkFrame ["Observation.code"; "Observation.value"]
    [mkRow 0 [("Observation.code", CStr "1783-0"); ("Observation.value", CNum 4)];
     mkRow 1 [("Observation.code", CStr "1783-0"); ("Observation.value", CStr "high")]].

(** A frame whose LDL-coded row holds text as its value; its ALP rows are
    numbers. *)
Definition ldl_text_frame : frame :=
  mkFrame ["Observation.code"; "Observation.value"]
    [mkRow 0 [("Observation.code", CStr "1783-0"); ("Observation.value", CNum 4)];
     mkRow 1 [("Observation.code", CStr "13457-7"); ("Observation.value", CStr "high")]].




(** [synth_dataset.csv] with well-formed dates. *)
Definition wellformed_fs : filesystem := fun path =>
  if String.eqb path "synth_dataset.csv" then
    Some (mkCsv ["Patient.birthDate"; "Condition.recordedDate";
                 "Observation.effective.x.extension.QuelleKlinischesBezugsdatum";
                 "Observation.code"; "Observation.value"]
            [[Some "1970-01-02"; Some "2021-03-04"; None; Some "1783-0"; Some "80"]])
  else None.

(** ** Further descriptions used by the properties below *)

(** The numbers of a column, [NaN] cells left out. *)
Fixpoint numeric_values (col : string) (rs : list row) : list Q :=
  match rs with
  | [] => []
  | r :: rs' =>
      match get_cell col r with
      | CNum q => q :: numeric_values col rs'
      | _ => numeric_values col rs'
      end
  end.

(** The mean of a window's numbers; [None] ([NaN]) when it has none. *)
Definition window_mean (col : string) (w : list row) : option Q :=
  match numeric_values col w with
  | [] => None
  | vs => Some (arith_mean vs)
  end.

(** The number [group_mean] stands for, [NaN] read as 0. *)
Definition mean_value (m : option Q) : Q :=
  match m with
  | Some q => q
  | None => 0%Q
  end.

(** Occurrences of a character in a text. *)
Fixpoint count_char (c : ascii) (s : string) : nat :=
  match s with
  | EmptyString => 0
  | String a s' => (if Ascii.eqb a c then 1 else 0) + count_char c s'
  end.

Definition newline_char : ascii := ascii_of_nat 10.

(** ** Properties of [filter_lab_data] *)

(** The row predicate [filter_lab_data] applies: code accepted and a
    value cell that is a number greater than zero. *)
Definition value_pos (value_col : string) (r : row) : bool :=
  match get_cell value_col r with
  | CNum q => negb (Qle_bool q 0)
  | _ => false
  end.

Definition keep_row (loinc_codes : list string) (value_col : string) (r : row) : bool :=
  cell_isin loinc_codes (get_cell code_col r) && value_pos value_col r.

(** A value column that [> 0] can compare: numbers and [NaN] only. *)
Definition numeric_cell (v : cell) : Prop :=
  match v with
  | CNum _ | CNA => True
  | _ => False
  end.

Lemma select_gt0_filter : forall col rs kept,
  select_gt0 col rs = Ok kept -> kept = filter (value_pos col) rs.
Proof.
  intros col rs; induction rs as [|r rs IH]; intros kept H; simpl in H.
  - injection H as <-; reflexivity.
  - unfold value_pos at 1; simpl.
    destruct (get_cell col r) eqn:Ec; simpl in H; try discriminate;
      destruct (select_gt0 col rs) as [k|e] eqn:Es; simpl in H; try discriminate;
      injection H as <-; rewrite (IH k eq_refl); reflexivity.
Qed.

Lemma select_gt0_total : forall col rs,
  (forall r, In r rs -> numeric_cell (get_cell col r)) ->
  select_gt0 col rs = Ok (filter (value_pos col) rs).
Proof.
  intros col rs; induction rs as [|r rs IH]; intros Hnum; simpl.
  - reflexivity.
  - rewrite IH by (intros x Hx; apply Hnum; right; exact Hx).
    unfold value_pos at 2.
    specialize (Hnum r (or_introl eq_refl)).
    destruct (get_cell col r); simpl in *; try contradiction; reflexivity.
Qed.

Lemma filter_filter_andb : forall {A} (p q : A -> bool) l,
  filter q (filter p l) = filter (fun x => p x && q x) l.
Proof.
  intros A p q l; induction l as [|x l IH]; simpl; [reflexivity|].
  destruct (p x); simpl; [destruct (q x)|]; rewrite ?IH; reflexivity.
Qed.

Lemma filter_lab_data_spec : forall df codes col t,
  filter_lab_data df codes col = Ok t ->
  columns t = columns df /\ rows t = filter (keep_row codes col) (rows df).
Proof.
  intros df codes col t H.
  unfold filter_lab_data, select_codes, select_positive in H.
  destruct (has_column code_col (columns df)); simpl in H; [|discriminate].
  destruct (has_column col (columns df)); simpl in H; [|discriminate].
  destruct (select_gt0 col _) as [kept|e] eqn:Es; simpl in H; [|discriminate].
  injection H as <-; simpl; split; [reflexivity|].
  rewrite (select_gt0_filter _ _ _ Es), filter_filter_andb; reflexivity.
Qed.

Lemma Qle_bool_0_false : forall q, Qle_bool q 0 = false -> (0 < q)%Q.
Proof.
  intros q H; apply Qnot_le_lt; intro Hle.
  apply Qle_bool_iff in Hle; congruence.
Qed.

Lemma keep_row_true : forall codes col r,
  keep_row codes col r = true ->
  (exists s, get_cell code_col r = CStr s /\ In s codes) /\
  (exists q, get_cell col r = CNum q /\ (0 < q)%Q).
Proof.
  intros codes col r H; unfold keep_row, value_pos, cell_isin in H.
  apply andb_prop in H as [H1 H2]; split.
  - destruct (get_cell code_col r) as [s| | |]; try discriminate.
    exists s; split; [reflexivity|].
    apply existsb_exists in H1 as [x [Hx Heq]].
    apply String.eqb_eq in Heq; subst; exact Hx.
  - destruct (get_cell col r) as [|q| |]; try discriminate.
    exists q; split; [reflexivity|].
    apply Qle_bool_0_false; destruct (Qle_bool q 0); [discriminate|reflexivity].
Qed.

(** ** Properties of the aggregator *)

Lemma range_indexed_from_sorted : forall rs k,
  map row_index rs = seq k (List.length rs) -> StronglySorted index_lt rs.
Proof.
  intros rs; induction rs as [|r rs IH]; intros k H; simpl in H.
  - constructor.
  - injection H as Hr Hrs; constructor; [apply (IH (S k) Hrs)|].
    apply Forall_forall; intros x Hx; unfold index_lt.
    assert (Hin : In (row_index x) (seq (S k) (List.length rs))).
    { rewrite <- Hrs; apply in_map; exact Hx. }
    apply in_seq in Hin; lia.
Qed.

Lemma StronglySorted_filter_rows : forall (p : row -> bool) rs,
  StronglySorted index_lt rs -> StronglySorted index_lt (filter p rs).
Proof.
  intros p rs; induction rs as [|r rs IH]; intros H; simpl; [constructor|].
  apply StronglySorted_inv in H as [Hs Hf].
  destruct (p r); [constructor|]; auto.
  apply Forall_forall; intros x Hx; apply filter_In in Hx as [Hx _].
  rewrite Forall_forall in Hf; auto.
Qed.

Lemma insert_by_index_least : forall r xs,
  Forall (index_lt r) xs -> insert_by_index r xs = r :: xs.
Proof.
  intros r [|x xs] H; simpl; [reflexivity|].
  inversion H as [|? ? Hx _]; subst; unfold index_lt in Hx.
  replace (row_index r <=? row_index x) with true by (symmetry; apply Nat.leb_le; lia).
  reflexivity.
Qed.

Lemma sort_index_sorted : forall rs,
  StronglySorted index_lt rs -> sort_index rs = rs.
Proof.
  intros rs; induction rs as [|r rs IH]; intros H; simpl; [reflexivity|].
  apply StronglySorted_inv in H as [Hs Hf].
  rewrite IH by exact Hs; apply insert_by_index_least; exact Hf.
Qed.

Lemma reset_index_from_cells : forall rs i,
  map row_cells (reset_index_from i rs) = map row_cells rs.
Proof.
  intros rs; induction rs as [|r rs IH]; intros i; simpl; [reflexivity|].
  rewrite IH; reflexivity.
Qed.

Lemma reset_index_length : forall rs,
  List.length (reset_index rs) = List.length rs.
Proof.
  intros rs; rewrite <- (length_map row_cells), <- (length_map row_cells rs).
  unfold reset_index; rewrite reset_index_from_cells; reflexivity.
Qed.

Lemma get_cell_cells : forall col a b,
  row_cells a = row_cells b -> get_cell col a = get_cell col b.
Proof. intros col a b H; unfold get_cell; rewrite H; reflexivity. Qed.

Lemma column_values_cells : forall col a b,
  map row_cells a = map row_cells b -> column_values col a = column_values col b.
Proof.
  intros col a; induction a as [|x a IH]; intros [|y b] H; simpl in H;
    try discriminate; [reflexivity|].
  injection H as Hxy Hab; simpl.
  rewrite (IH b Hab), (get_cell_cells col x y Hxy); reflexivity.
Qed.

Lemma series_mean_cells : forall col a b,
  map row_cells a = map row_cells b -> series_mean col a = series_mean col b.
Proof.
  intros col a b H; unfold series_mean; rewrite (column_values_cells col a b H).
  reflexivity.
Qed.

Lemma ceil_div_zero : forall w, 0 < w -> ceil_div 0 w = 0.
Proof. intros w Hw; unfold ceil_div; apply Nat.div_small; lia. Qed.

Lemma ceil_div_succ : forall a w, 0 < w -> 0 < a ->
  ceil_div a w = S (ceil_div (a - w) w).
Proof.
  intros a w Hw Ha; unfold ceil_div.
  destruct (Nat.le_gt_cases a w) as [Hle|Hgt].
  - replace (a - w + w - 1) with (w - 1) by lia.
    rewrite (Nat.div_small (w - 1) w) by lia.
    symmetry; apply (Nat.div_unique _ _ _ (a - 1)); lia.
  - replace (a + w - 1) with ((a - w + w - 1) + 1 * w) by lia.
    rewrite Nat.div_add by lia; lia.
Qed.

(** [ceil_div n w] windows of [w] rows cover [n] rows, one fewer do not. *)
Lemma ceil_div_bounds : forall n w, 0 < w ->
  n <= ceil_div n w * w /\ (0 < n -> (ceil_div n w - 1) * w < n).
Proof.
  intros n w Hw; unfold ceil_div.
  assert (Hw' : w <> 0) by lia.
  pose proof (Nat.div_mod (n + w - 1) w Hw') as Hdm.
  pose proof (Nat.mod_upper_bound (n + w - 1) w Hw') as Hub.
  remember ((n + w - 1) / w) as k; remember ((n + w - 1) mod w) as r.
  split; [nia|]; intros Hn.
  rewrite Nat.mul_sub_distr_r, Nat.mul_1_l; nia.
Qed.

Lemma range_go_windows : forall fuel s n w, 0 < w -> n - s <= fuel ->
  range_go fuel s n w = map (fun i => s + i * w) (seq 0 (ceil_div (n - s) w)).
Proof.
  intros fuel; induction fuel as [|fuel IH]; intros s n w Hw Hf; simpl.
  - replace (n - s) with 0 by lia; rewrite ceil_div_zero by exact Hw; reflexivity.
  - destruct (s <? n) eqn:Hs.
    + apply Nat.ltb_lt in Hs.
      rewrite (ceil_div_succ (n - s) w Hw) by lia; simpl.
      rewrite IH by lia; f_equal; [lia|].
      replace (n - (s + w)) with (n - s - w) by lia.
      rewrite <- seq_shift, map_map; apply map_ext; intros i; simpl; lia.
    + apply Nat.ltb_ge in Hs.
      replace (n - s) with 0 by lia; rewrite ceil_div_zero by exact Hw; reflexivity.
Qed.

Lemma py_range_windows : forall n w, 0 < w ->
  py_range 0 n w = Ok (map (fun i => i * w) (seq 0 (ceil_div n w))).
Proof.
  intros n w Hw; unfold py_range.
  replace (w =? 0) with false by (symmetry; apply Nat.eqb_neq; lia).
  rewrite range_go_windows by (auto; lia).
  rewrite Nat.sub_0_r; reflexivity.
Qed.

Lemma chunk_loop_all : forall cols rs col w (f : nat -> option Q) starts,
  0 < w -> has_column col cols = true ->
  (forall s, In s starts -> s < List.length rs) ->
  (forall s, In s starts -> series_mean col (iloc rs s (s + w)) = Ok (f s)) ->
  chunk_loop cols rs col w starts = Ok (map f starts).
Proof.
  intros cols rs col w f starts Hw Hcol; induction starts as [|s starts IH];
    intros Hlt Hmean; simpl; [reflexivity|].
  assert (Hne : (List.length (iloc rs s (s + w)) =? 0) = false).
  { apply Nat.eqb_neq; unfold iloc; rewrite length_firstn, length_skipn.
    specialize (Hlt s (or_introl eq_refl)); lia. }
  rewrite Hne, Hcol; simpl.
  rewrite (Hmean s (or_introl eq_refl)); simpl.
  rewrite IH by (intros; first [apply Hlt | apply Hmean]; right; assumption).
  reflexivity.
Qed.

Lemma concat_spec_windows : forall w k (l : list row), 0 < w -> List.length l <= k * w ->
  List.concat (map (fun i => firstn w (skipn (i * w) l)) (seq 0 k)) = l.
Proof.
  intros w k; induction k as [|k IH]; intros l Hw Hl; simpl.
  - destruct l; [reflexivity|simpl in Hl; lia].
  - rewrite <- seq_shift, map_map.
    rewrite (map_ext (fun x => firstn w (skipn (S x * w) l))
                     (fun x => firstn w (skipn (x * w) (skipn w l)))).
    2:{ intros x; rewrite skipn_skipn; f_equal; f_equal; lia. }
    rewrite IH by (auto; rewrite length_skipn; lia).
    apply firstn_skipn.
Qed.

Lemma column_values_numeric : forall col ch,
  (forall r, In r ch -> exists q, get_cell col r = CNum q) ->
  column_values col ch = Ok (map (cell_value col) ch).
Proof.
  intros col ch; induction ch as [|r ch IH]; intros Hnum; simpl; [reflexivity|].
  rewrite IH by (intros; apply Hnum; right; assumption); simpl.
  destruct (Hnum r (or_introl eq_refl)) as [q Hq].
  unfold cell_value; rewrite Hq; reflexivity.
Qed.

Lemma series_mean_numeric : forall col ch, ch <> [] ->
  (forall r, In r ch -> exists q, get_cell col r = CNum q) ->
  series_mean col ch = Ok (Some (arith_mean (map (cell_value col) ch))).
Proof.
  intros col ch Hne Hnum; unfold series_mean.
  rewrite column_values_numeric by exact Hnum; simpl.
  destruct ch; [congruence|reflexivity].
Qed.

Lemma filter_lab_data_has_column : forall df codes col t,
  filter_lab_data df codes col = Ok t -> has_column col (columns df) = true.
Proof.
  intros df codes col t H.
  unfold filter_lab_data, select_codes, select_positive in H.
  destruct (has_column code_col (columns df)); simpl in H; [|discriminate].
  destruct (has_column col (columns df)); simpl in H; [reflexivity|discriminate].
Qed.

Lemma filter_lab_data_sorted : forall df codes col t,
  range_indexed df -> filter_lab_data df codes col = Ok t ->
  StronglySorted index_lt (rows t).
Proof.
  intros df codes col t Hidx H.
  destruct (filter_lab_data_spec _ _ _ _ H) as [_ Hrows]; rewrite Hrows.
  apply StronglySorted_filter_rows, (range_indexed_from_sorted _ 0), Hidx.
Qed.

Lemma filter_lab_data_numeric : forall df codes col t r,
  filter_lab_data df codes col = Ok t -> In r (rows t) ->
  exists q, get_cell col r = CNum q /\ (0 < q)%Q.
Proof.
  intros df codes col t r H Hr.
  destruct (filter_lab_data_spec _ _ _ _ H) as [_ Hrows]; rewrite Hrows in Hr.
  apply filter_In in Hr as [_ Hk]; apply (keep_row_true _ _ _ Hk).
Qed.

Lemma in_firstn_list : forall {A} n (l : list A) x, In x (firstn n l) -> In x l.
Proof.
  intros A n l x H; rewrite <- (firstn_skipn n l); apply in_or_app; left; exact H.
Qed.

Lemma in_skipn_list : forall {A} n (l : list A) x, In x (skipn n l) -> In x l.
Proof.
  intros A n l x H; rewrite <- (firstn_skipn n l); apply in_or_app; right; exact H.
Qed.

Lemma nth_spec_windows : forall w (l : list row) i,
  i < List.length (spec_windows w l) ->
  nth i (spec_windows w l) [] = firstn w (skipn (i * w) l).
Proof.
  intros w l i Hi; unfold spec_windows in *; rewrite length_map, length_seq in Hi.
  set (f := fun j => firstn w (skipn (j * w) l)).
  rewrite (nth_indep _ [] (f 0)) by (rewrite length_map, length_seq; exact Hi).
  rewrite map_nth, seq_nth by exact Hi; reflexivity.
Qed.

Lemma length_spec_windows : forall w (l : list row),
  List.length (spec_windows w l) = ceil_div (List.length l) w.
Proof. intros; unfold spec_windows; rewrite length_map, length_seq; reflexivity. Qed.

(** The chunks [group_records] averages, once the frame is in index order. *)
Lemma group_records_windows : forall t col w,
  0 < w -> has_column col (columns t) = true ->
  sort_index (rows t) = rows t ->
  (forall r, In r (rows t) -> exists q, get_cell col r = CNum q) ->
  group_records t col w =
    Ok (combine (seq 0 (List.length (spec_windows w (rows t))))
          (map (fun win => Some (arith_mean (map (cell_value col) win)))
             (spec_windows w (rows t)))).
Proof.
  intros t col w Hw Hcol Hsort Hnum; unfold group_records.
  rewrite Hsort, reset_index_length, py_range_windows by exact Hw; simpl.
  set (l := rows t) in *; set (k := ceil_div (List.length l) w).
  rewrite (chunk_loop_all _ _ _ _
             (fun s => Some (arith_mean (map (cell_value col) (firstn w (skipn s l)))))
             _ Hw Hcol).
  - simpl; rewrite length_map, map_map; unfold spec_windows; fold k.
    rewrite map_map, !length_map, !length_seq; reflexivity.
  - intros s Hs; apply in_map_iff in Hs as [i [<- Hi]]; apply in_seq in Hi.
    rewrite reset_index_length.
    destruct (ceil_div_bounds (List.length l) w Hw) as [_ Hlt]; fold k in Hlt.
    assert (Hl : 0 < List.length l).
    { destruct (Nat.eq_dec (List.length l) 0) as [E|E]; [|lia].
      unfold k in Hi; rewrite E, ceil_div_zero in Hi by exact Hw; lia. }
    specialize (Hlt Hl); nia.
  - intros s Hs; apply in_map_iff in Hs as [i [<- Hi]]; apply in_seq in Hi.
    destruct (ceil_div_bounds (List.length l) w Hw) as [_ Hlt]; fold k in Hlt.
    assert (Hl : 0 < List.length l).
    { destruct (Nat.eq_dec (List.length l) 0) as [E|E]; [|lia].
      unfold k in Hi; rewrite E, ceil_div_zero in Hi by exact Hw; lia. }
    specialize (Hlt Hl).
    unfold iloc; replace (i * w + w - i * w) with w by lia.
    rewrite (series_mean_cells col _ (firstn w (skipn (i * w) l))).
    2:{ rewrite <- !firstn_map, <- !skipn_map.
        unfold reset_index; rewrite reset_index_from_cells; reflexivity. }
    apply series_mean_numeric.
    + intros He; apply (f_equal (@List.length row)) in He.
      rewrite length_firstn, length_skipn in He; simpl in He; nia.
    + intros r Hr; apply Hnum.
      apply in_firstn_list in Hr; apply in_skipn_list in Hr; exact Hr.
Qed.

Lemma chunk_loop_sources : forall cols rs col w starts ms,
  chunk_loop cols rs col w starts = Ok ms ->
  forall m, In m ms ->
  exists ch, ch <> [] /\ (forall r, In r ch -> In r rs) /\ series_mean col ch = Ok m.
Proof.
  intros cols rs col w starts; induction starts as [|s starts IH];
    intros ms H m Hm; simpl in H.
  - injection H as <-; destruct Hm.
  - destruct (List.length (iloc rs s (s + w)) =? 0) eqn:E0; [apply (IH ms H m Hm)|].
    destruct (negb (has_column col cols)); [discriminate|].
    destruct (series_mean col (iloc rs s (s + w))) as [mv|e] eqn:Em; simpl in H;
      [|discriminate].
    destruct (chunk_loop cols rs col w starts) as [ms'|e] eqn:Er; simpl in H;
      [|discriminate].
    injection H as <-; destruct Hm as [<-|Hm]; [|apply (IH ms' eq_refl m Hm)].
    exists (iloc rs s (s + w)); split; [|split; [|exact Em]].
    + intros He; rewrite He in E0; discriminate.
    + intros r Hr; unfold iloc in Hr; apply in_firstn_list, in_skipn_list in Hr; exact Hr.
Qed.

Lemma insert_by_index_in : forall r x xs, In x (insert_by_index r xs) -> x = r \/ In x xs.
Proof.
  intros r x xs; induction xs as [|y xs IH]; simpl; intros H.
  - destruct H as [H|[]]; left; symmetry; exact H.
  - destruct (row_index r <=? row_index y); simpl in H.
    + destruct H as [H|H]; [left; symmetry; exact H|right; exact H].
    + destruct H as [H|H]; [right; left; exact H|].
      destruct (IH H) as [H'|H']; [left; exact H'|right; right; exact H'].
Qed.

Lemma sort_index_in : forall x rs, In x (sort_index rs) -> In x rs.
Proof.
  intros x rs; induction rs as [|r rs IH]; simpl; intros H; [exact H|].
  destruct (insert_by_index_in _ _ _ H) as [<-|H']; [left; reflexivity|right; auto].
Qed.

Lemma reset_index_from_in : forall x rs i, In x (reset_index_from i rs) ->
  exists r, In r rs /\ row_cells x = row_cells r.
Proof.
  intros x rs; induction rs as [|r rs IH]; simpl; intros i H; [destruct H|].
  destruct H as [<-|H].
  - exists r; split; [left; reflexivity|reflexivity].
  - destruct (IH _ H) as [r' [Hr' Hc]]; exists r'; split; [right; exact Hr'|exact Hc].
Qed.

Lemma Qsum_nonneg : forall xs, (forall x, In x xs -> 0 < x)%Q -> (0 <= Qsum xs)%Q.
Proof.
  intros xs; induction xs as [|x xs IH]; simpl; intros H; [apply Qle_refl|].
  rewrite <- (Qplus_0_l 0); apply Qplus_le_compat.
  - apply Qlt_le_weak, H; left; reflexivity.
  - apply IH; intros; apply H; right; assumption.
Qed.

Lemma arith_mean_pos : forall xs, xs <> [] ->
  (forall x, In x xs -> 0 < x)%Q -> (0 < arith_mean xs)%Q.
Proof.
  intros xs Hne H; unfold arith_mean.
  assert (Hsum : (0 < Qsum xs)%Q).
  { destruct xs as [|x xs]; [congruence|simpl].
    rewrite <- (Qplus_0_r 0); apply Qplus_lt_le_compat.
    - apply H; left; reflexivity.
    - apply Qsum_nonneg; intros; apply H; right; assumption. }
  assert (Hlen : (0 < inject_Z (Z.of_nat (List.length xs)))%Q).
  { change 0%Q with (inject_Z 0); rewrite <- Zlt_Qlt.
    destruct xs; [congruence|simpl; lia]. }
  apply Qlt_shift_div_l; [exact Hlen|]; rewrite Qmult_0_l; exact Hsum.
Qed.

(** * Claims *)

(** C1: for a filtered table of [N] rows (from a frame with the index
    [read_csv] gives it) and a window size [W > 0], the chunked-mean
    aggregator yields [ceil(N/W)] records; record [i] has [group_index = i]
    and [group_mean] the arithmetic mean of the values of window [i], the
    rows [i*W .. i*W+W-1]; the windows are non-empty, at most [W] rows
    long, all but the last exactly [W] rows, and their concatenation is the
    filtered table. *)
Theorem chunked_mean_policy : forall df codes col t w,
  range_indexed df -> filter_lab_data df codes col = Ok t -> 0 < w ->
  let ws := spec_windows w (rows t) in
  group_records t col w =
    Ok (combine (seq 0 (List.length ws))
          (map (fun win => Some (arith_mean (map (cell_value col) win))) ws)) /\
  List.length ws = ceil_div (List.length (rows t)) w /\
  List.concat ws = rows t /\
  (forall i, i < List.length ws -> nth i ws [] <> [] /\ List.length (nth i ws []) <= w) /\
  (forall i, S i < List.length ws -> List.length (nth i ws []) = w).
Proof.
  intros df codes col t w Hidx Hf Hw ws.
  destruct (filter_lab_data_spec _ _ _ _ Hf) as [Hcols _].
  pose proof (filter_lab_data_has_column _ _ _ _ Hf) as Hcol.
  destruct (ceil_div_bounds (List.length (rows t)) w Hw) as [Hcover Hlast].
  split; [|split; [|split; [|split]]].
  - apply group_records_windows; [exact Hw| rewrite Hcols; exact Hcol | |].
    + apply sort_index_sorted, (filter_lab_data_sorted df codes col _ Hidx Hf).
    + intros r Hr; destruct (filter_lab_data_numeric _ _ _ _ _ Hf Hr) as [q [Hq _]].
      exists q; exact Hq.
  - apply length_spec_windows.
  - apply concat_spec_windows; [exact Hw|exact Hcover].
  - intros i Hi; unfold ws in *; rewrite nth_spec_windows by exact Hi.
    rewrite length_spec_windows in Hi.
    assert (Hn : 0 < List.length (rows t)).
    { destruct (Nat.eq_dec (List.length (rows t)) 0) as [E|E]; [|lia].
      rewrite E, ceil_div_zero in Hi by exact Hw; lia. }
    specialize (Hlast Hn); split.
    + intros He; apply (f_equal (@List.length row)) in He.
      rewrite length_firstn, length_skipn in He; simpl in He; nia.
    + rewrite length_firstn; lia.
  - intros i Hi; unfold ws in *; rewrite nth_spec_windows by lia.
    rewrite length_spec_windows in Hi.
    assert (Hn : 0 < List.length (rows t)).
    { destruct (Nat.eq_dec (List.length (rows t)) 0) as [E|E]; [|lia].
      rewrite E, ceil_div_zero in Hi by exact Hw; lia. }
    specialize (Hlast Hn).
    rewrite length_firstn, length_skipn; nia.
Qed.

(** The example of the spec: 25 ALP-coded positive rows in windows of 10
    give three records with [group_index] 0, 1, 2, the last from 5 rows. *)
Lemma chunked_mean_policy_witness :
  exists t, filter_lab_data alp_example_frame
              ["109532-2"; "1783-0"; "59164-4"; "16337-8"] "Observation.value" = Ok t /\
  exists recs, group_records t "Observation.value" 10 = Ok recs /\
  map fst recs = [0; 1; 2] /\
  map (@List.length row) (spec_windows 10 (rows t)) = [10; 10; 5].
Proof.
  destruct (filter_lab_data alp_example_frame
              ["109532-2"; "1783-0"; "59164-4"; "16337-8"] "Observation.value")
    as [t|e] eqn:Hf; [|vm_compute in Hf; discriminate].
  exists t; split; [reflexivity|].
  destruct (chunked_mean_policy alp_example_frame
              ["109532-2"; "1783-0"; "59164-4"; "16337-8"] "Observation.value" t 10
              ltac:(vm_compute; reflexivity) Hf ltac:(lia)) as [H1 _].
  eexists; split; [exact H1|].
  vm_compute in Hf; injection Hf as <-; split; vm_compute; reflexivity.
Defined.

(** C2: every row [filter_lab_data] returns is a row of its input, with a
    code in the accepted set and a value greater than zero. *)
Theorem filter_rows_subset_and_satisfy : forall df codes col t,
  filter_lab_data df codes col = Ok t ->
  forall r, In r (rows t) ->
  In r (rows df) /\
  (exists s, get_cell code_col r = CStr s /\ In s codes) /\
  (exists q, get_cell col r = CNum q /\ (0 < q)%Q).
Proof.
  intros df codes col t H r Hr.
  destruct (filter_lab_data_spec _ _ _ _ H) as [_ Hrows]; rewrite Hrows in Hr.
  apply filter_In in Hr as [Hin Hk]; split; [exact Hin|].
  apply keep_row_true; exact Hk.
Qed.

Lemma filter_rows_subset_and_satisfy_witness :
  exists t, filter_lab_data mixed_frame ["109532-2"; "1783-0"; "59164-4"; "16337-8"]
              "Observation.value" = Ok t /\
  List.length (rows t) = 2 /\
  forall r, In r (rows t) ->
  In r (rows mixed_frame) /\
  (exists s, get_cell code_col r = CStr s /\
             In s ["109532-2"; "1783-0"; "59164-4"; "16337-8"]) /\
  (exists q, get_cell "Observation.value" r = CNum q /\ (0 < q)%Q).
Proof.
  destruct (filter_lab_data mixed_frame ["109532-2"; "1783-0"; "59164-4"; "16337-8"]
              "Observation.value") as [t|e] eqn:Hf; [|vm_compute in Hf; discriminate].
  exists t; split; [reflexivity|split].
  - vm_compute in Hf; injection Hf as <-; reflexivity.
  - apply (filter_rows_subset_and_satisfy _ _ _ _ Hf).
Defined.

Lemma filter_all_false : forall {A} (p : A -> bool) l,
  (forall x, In x l -> p x = false) -> filter p l = [].
Proof.
  intros A p l; induction l as [|x l IH]; simpl; intros H; [reflexivity|].
  rewrite (H x (or_introl eq_refl)); apply IH; intros; apply H; right; assumption.
Qed.

(** C5: [filter_lab_data] keeps the column set and returns the matching
    rows in their input order (a [filter] of the input rows); when no row
    matches, a frame with the two columns the filter reads, whose rows of
    an accepted code hold numbers or [NaN] in the value column (what
    [> 0] can compare), gives an empty frame, not an error. *)
Theorem filter_preserves_columns_and_order : forall df codes col,
  (forall t, filter_lab_data df codes col = Ok t ->
     columns t = columns df /\ rows t = filter (keep_row codes col) (rows df)) /\
  (has_column code_col (columns df) = true -> has_column col (columns df) = true ->
   (forall r, In r (rows df) -> cell_isin codes (get_cell code_col r) = true ->
      numeric_cell (get_cell col r)) ->
   (forall r, In r (rows df) -> keep_row codes col r = false) ->
   filter_lab_data df codes col = Ok (mkFrame (columns df) [])).
Proof.
  intros df codes col; split; [apply filter_lab_data_spec|].
  intros Hcode Hcol Hnum Hnone.
  unfold filter_lab_data, select_codes, select_positive; rewrite Hcode; simpl.
  rewrite Hcol, select_gt0_total; simpl.
  - rewrite filter_filter_andb; fold (keep_row codes col).
    rewrite (filter_all_false _ _ Hnone); reflexivity.
  - intros r Hr; apply filter_In in Hr as [Hr Hc]; apply Hnum; assumption.
Qed.

Lemma filter_preserves_columns_and_order_witness :
  (exists t, filter_lab_data mixed_frame ["109532-2"; "1783-0"; "59164-4"; "16337-8"]
               "Observation.value" = Ok t /\
     columns t = columns mixed_frame /\
     map row_index (rows t) = [0; 4]) /\
  filter_lab_data mixed_frame ["96258-9"] "Observation.value" =
    Ok (mkFrame (columns mixed_frame) []).
Proof.
  split.
  - destruct (filter_lab_data mixed_frame ["109532-2"; "1783-0"; "59164-4"; "16337-8"]
                "Observation.value") as [t|e] eqn:Hf; [|vm_compute in Hf; discriminate].
    exists t; split; [reflexivity|].
    destruct (proj1 (filter_preserves_columns_and_order mixed_frame
                       ["109532-2"; "1783-0"; "59164-4"; "16337-8"] "Observation.value")
                t Hf) as [Hc Hr].
    split; [exact Hc|rewrite Hr; vm_compute; reflexivity].
  - apply (proj2 (filter_preserves_columns_and_order mixed_frame ["96258-9"]
                    "Observation.value")); [reflexivity|reflexivity| |].
    + intros r Hr _; vm_compute in Hr; repeat destruct Hr as [<-|Hr]; simpl; trivial.
      destruct Hr.
    + intros r Hr; vm_compute in Hr; repeat destruct Hr as [<-|Hr]; try reflexivity.
      destruct Hr.
Defined.

(** C7: the ALP pipeline filters with exactly the codes
    [109532-2, 1783-0, 59164-4, 16337-8], the LDL pipeline with exactly
    [13457-7, 53133-5, 96258-9, 69419-0]. *)
Theorem category_code_sets : forall fmt_float render df col,
  process_alp fmt_float render df col =
    (let! f := filter_lab_data df ["109532-2"; "1783-0"; "59164-4"; "16337-8"] col in
     generate_row_group_density fmt_float render f col
       "ALP Grouped Mean Density" "Mean ALP value (mmol/L, per 10 rows)" 10) /\
  process_ldl fmt_float render df col =
    (let! f := filter_lab_data df ["13457-7"; "53133-5"; "96258-9"; "69419-0"] col in
     generate_row_group_density fmt_float render f col
       "LDL Grouped Mean Density" "Mean LDL value (U/L, per 10 rows)" 10).
Proof. intros; split; reflexivity. Qed.

(** C10: every [group_mean] computed from a filtered frame is a number
    strictly greater than zero. *)
Theorem group_means_positive : forall df codes col w t recs,
  filter_lab_data df codes col = Ok t -> group_records t col w = Ok recs ->
  forall i m, In (i, m) recs -> exists q, m = Some q /\ (0 < q)%Q.
Proof.
  intros df codes col w t recs Hf Hg i m Him.
  unfold group_records in Hg.
  destruct (py_range 0 _ w) as [starts|e]; simpl in Hg; [|discriminate].
  destruct (chunk_loop _ _ _ _ _) as [ms|e] eqn:Hl; simpl in Hg; [|discriminate].
  injection Hg as <-; apply in_combine_r in Him.
  destruct (chunk_loop_sources _ _ _ _ _ _ Hl m Him) as [ch [Hne [Hin Hm]]].
  assert (Hpos : forall r, In r ch -> exists q, get_cell col r = CNum q /\ (0 < q)%Q).
  { intros r Hr; apply Hin in Hr; unfold reset_index in Hr.
    apply reset_index_from_in in Hr as [r0 [Hr0 Hc]]; apply sort_index_in in Hr0.
    rewrite (get_cell_cells col r r0 Hc).
    apply (filter_lab_data_numeric _ _ _ _ _ Hf Hr0). }
  rewrite series_mean_numeric in Hm.
  - injection Hm as <-; eexists; split; [reflexivity|].
    apply arith_mean_pos.
    + destruct ch; [congruence|discriminate].
    + intros x Hx; apply in_map_iff in Hx as [r [<- Hr]].
      destruct (Hpos r Hr) as [q [Hq Hq0]]; unfold cell_value; rewrite Hq; exact Hq0.
  - exact Hne.
  - intros r Hr; destruct (Hpos r Hr) as [q [Hq _]]; exists q; exact Hq.
Qed.

Lemma group_means_positive_witness :
  exists t recs,
    filter_lab_data mixed_frame ["109532-2"; "1783-0"; "59164-4"; "16337-8"]
      "Observation.value" = Ok t /\
    group_records t "Observation.value" 10 = Ok recs /\
    recs <> [] /\
    forall i m, In (i, m) recs -> exists q, m = Some q /\ (0 < q)%Q.
Proof.
  destruct (filter_lab_data mixed_frame ["109532-2"; "1783-0"; "59164-4"; "16337-8"]
              "Observation.value") as [t|e] eqn:Hf; [|vm_compute in Hf; discriminate].
  destruct (group_records t "Observation.value" 10) as [recs|e] eqn:Hg;
    [|vm_compute in Hf; injection Hf as <-; vm_compute in Hg; discriminate].
  exists t, recs; split; [reflexivity|split; [exact Hg|split]].
  - vm_compute in Hf; injection Hf as <-; vm_compute in Hg; injection Hg as <-; discriminate.
  - apply (group_means_positive _ _ _ _ _ _ Hf Hg).
Defined.

(** ** Packaging *)

Lemma generate_empty_png : forall fmt_float render t col title xlabel w p,
  generate_row_group_density fmt_float render t col title xlabel w = Ok p ->
  group_records t col w = Ok [] -> p = (csv_header, "").
Proof.
  intros fmt_float render t col title xlabel w p H Hg.
  unfold generate_row_group_density in H; rewrite Hg in H; simpl in H.
  injection H as <-; reflexivity.
Qed.

Lemma group_records_no_rows : forall t col w, 0 < w -> rows t = [] ->
  group_records t col w = Ok [].
Proof.
  intros t col w Hw Hr; unfold group_records; rewrite Hr; simpl.
  unfold py_range; replace (w =? 0) with false by (symmetry; apply Nat.eqb_neq; lia).
  reflexivity.
Qed.

Lemma process_alp_inv : forall fmt_float render df col a,
  process_alp fmt_float render df col = Ok a ->
  exists t, filter_lab_data df ["109532-2"; "1783-0"; "59164-4"; "16337-8"] col = Ok t /\
    generate_row_group_density fmt_float render t col
      "ALP Grouped Mean Density" "Mean ALP value (mmol/L, per 10 rows)" 10 = Ok a.
Proof.
  intros fmt_float render df col a H; unfold process_alp in H.
  destruct (filter_lab_data df _ col) as [t|e]; simpl in H; [|discriminate].
  exists t; split; [reflexivity|exact H].
Qed.

Lemma process_ldl_inv : forall fmt_float render df col l,
  process_ldl fmt_float render df col = Ok l ->
  exists t, filter_lab_data df ["13457-7"; "53133-5"; "96258-9"; "69419-0"] col = Ok t /\
    generate_row_group_density fmt_float render t col
      "LDL Grouped Mean Density" "Mean LDL value (U/L, per 10 rows)" 10 = Ok l.
Proof.
  intros fmt_float render df col l H; unfold process_ldl in H.
  destruct (filter_lab_data df _ col) as [t|e]; simpl in H; [|discriminate].
  exists t; split; [reflexivity|exact H].
Qed.

Lemma create_zip_output_ok : forall fmt_float render df zip_path col a l,
  process_alp fmt_float render df col = Ok a ->
  process_ldl fmt_float render df col = Ok l ->
  create_zip_output fmt_float render df zip_path true col =
    Ok [("alp_counts_synth.csv", fst a); ("alp_density_synth.png", snd a);
        ("ldl_counts_synth.csv", fst l); ("ldl_density_synth.png", snd l)].
Proof.
  intros fmt_float render df zip_path col a l Ha Hl.
  unfold create_zip_output; simpl; rewrite Ha; simpl; rewrite Hl; reflexivity.
Qed.

(** C3 (as the code has it): a run that completes writes exactly four
    entries, [alp_counts_synth.csv], [alp_density_synth.png],
    [ldl_counts_synth.csv] and [ldl_density_synth.png]; both entries of a
    category are written when its aggregate is empty, the image entry then
    being empty. *)
Theorem archive_entries_synth_names : forall fmt_float render df zip_path col,
  (forall writable es, create_zip_output fmt_float render df zip_path writable col = Ok es ->
     map fst es = ["alp_counts_synth.csv"; "alp_density_synth.png";
                   "ldl_counts_synth.csv"; "ldl_density_synth.png"]) /\
  (forall a l,
     process_alp fmt_float render df col = Ok a ->
     process_ldl fmt_float render df col = Ok l ->
     create_zip_output fmt_float render df zip_path true col =
       Ok [("alp_counts_synth.csv", fst a); ("alp_density_synth.png", snd a);
           ("ldl_counts_synth.csv", fst l); ("ldl_density_synth.png", snd l)] /\
     (forall t, filter_lab_data df ["109532-2"; "1783-0"; "59164-4"; "16337-8"] col = Ok t ->
        group_records t col 10 = Ok [] -> snd a = "") /\
     (forall t, filter_lab_data df ["13457-7"; "53133-5"; "96258-9"; "69419-0"] col = Ok t ->
        group_records t col 10 = Ok [] -> snd l = "")).
Proof.
  intros fmt_float render df zip_path col; split.
  - intros writable es H; unfold create_zip_output in H.
    destruct writable; simpl in H; [|discriminate].
    destruct (process_alp fmt_float render df col); simpl in H; [|discriminate].
    destruct (process_ldl fmt_float render df col); simpl in H; [|discriminate].
    injection H as <-; reflexivity.
  - intros a l Ha Hl; split; [apply create_zip_output_ok; assumption|split].
    + intros t Ht Hg; destruct (process_alp_inv _ _ _ _ _ Ha) as [t' [Ht' Hgen]].
      rewrite Ht in Ht'; injection Ht' as <-.
      rewrite (generate_empty_png _ _ _ _ _ _ _ _ Hgen Hg); reflexivity.
    + intros t Ht Hg; destruct (process_ldl_inv _ _ _ _ _ Hl) as [t' [Ht' Hgen]].
      rewrite Ht in Ht'; injection Ht' as <-.
      rewrite (generate_empty_png _ _ _ _ _ _ _ _ Hgen Hg); reflexivity.
Qed.

(** A run on [alp_example_frame]: no LDL row, so the LDL entries are the
    CSV header and an empty image. *)
Lemma archive_entries_synth_names_witness :
  exists a,
    process_alp sample_repr sample_png alp_example_frame "Observation.value" = Ok a /\
    process_ldl sample_repr sample_png alp_example_frame "Observation.value" =
      Ok (csv_header, "") /\
    create_zip_output sample_repr sample_png alp_example_frame "lab_density_outputs.zip"
      true "Observation.value" =
      Ok [("alp_counts_synth.csv", fst a); ("alp_density_synth.png", snd a);
          ("ldl_counts_synth.csv", csv_header); ("ldl_density_synth.png", "")].
Proof.
  destruct (process_alp sample_repr sample_png alp_example_frame "Observation.value")
    as [a|e] eqn:Ha; [|vm_compute in Ha; discriminate].
  exists a; split; [reflexivity|].
  assert (Hl : process_ldl sample_repr sample_png alp_example_frame "Observation.value" =
                 Ok (csv_header, "")) by (vm_compute; reflexivity).
  split; [exact Hl|].
  apply (proj2 (archive_entries_synth_names sample_repr sample_png alp_example_frame
                  "lab_density_outputs.zip" "Observation.value") a _ Ha Hl).
Defined.

(** C3 as stated fails: the entry names carry a [_synth] suffix. *)
Lemma archive_entries_counterexample :
  exists es,
    create_zip_output sample_repr sample_png mixed_frame "lab_density_outputs.zip"
      true "Observation.value" = Ok es /\
    map fst es <> ["alp_counts.csv"; "alp_density.png"; "ldl_counts.csv"; "ldl_density.png"].
Proof.
  destruct (create_zip_output sample_repr sample_png mixed_frame "lab_density_outputs.zip"
              true "Observation.value") as [es|e] eqn:H; [|vm_compute in H; discriminate].
  exists es; split; [reflexivity|].
  vm_compute in H; injection H as <-; vm_compute; discriminate.
Qed.

(** C4: when the filtered frame of a category has no row, its aggregate
    has zero records, its image is empty, its CSV is the header line alone,
    and the archive is still written whenever the other category's
    processing succeeds. *)
Theorem empty_category_run : forall fmt_float render df zip_path col,
  (forall t, filter_lab_data df ["13457-7"; "53133-5"; "96258-9"; "69419-0"] col = Ok t ->
     rows t = [] ->
     group_records t col 10 = Ok [] /\
     process_ldl fmt_float render df col = Ok (csv_header, "") /\
     (forall a, process_alp fmt_float render df col = Ok a ->
        create_zip_output fmt_float render df zip_path true col =
          Ok [("alp_counts_synth.csv", fst a); ("alp_density_synth.png", snd a);
              ("ldl_counts_synth.csv", csv_header); ("ldl_density_synth.png", "")])) /\
  (forall t, filter_lab_data df ["109532-2"; "1783-0"; "59164-4"; "16337-8"] col = Ok t ->
     rows t = [] ->
     group_records t col 10 = Ok [] /\
     process_alp fmt_float render df col = Ok (csv_header, "") /\
     (forall l, process_ldl fmt_float render df col = Ok l ->
        create_zip_output fmt_float render df zip_path true col =
          Ok [("alp_counts_synth.csv", csv_header); ("alp_density_synth.png", "");
              ("ldl_counts_synth.csv", fst l); ("ldl_density_synth.png", snd l)])).
Proof.
  intros fmt_float render df zip_path col; split; intros t Ht Hr.
  - assert (Hg : group_records t col 10 = Ok []) by (apply group_records_no_rows; [lia|exact Hr]).
    assert (Hl : process_ldl fmt_float render df col = Ok (csv_header, "")).
    { unfold process_ldl; rewrite Ht; simpl.
      unfold generate_row_group_density; rewrite Hg; reflexivity. }
    split; [exact Hg|split; [exact Hl|]].
    intros a Ha; apply (create_zip_output_ok _ _ _ _ _ _ _ Ha Hl).
  - assert (Hg : group_records t col 10 = Ok []) by (apply group_records_no_rows; [lia|exact Hr]).
    assert (Ha : process_alp fmt_float render df col = Ok (csv_header, "")).
    { unfold process_alp; rewrite Ht; simpl.
      unfold generate_row_group_density; rewrite Hg; reflexivity. }
    split; [exact Hg|split; [exact Ha|]].
    intros l Hl; apply (create_zip_output_ok _ _ _ _ _ _ _ Ha Hl).
Qed.

Lemma empty_category_run_witness :
  exists t a,
    filter_lab_data alp_example_frame ["13457-7"; "53133-5"; "96258-9"; "69419-0"]
      "Observation.value" = Ok t /\
    rows t = [] /\
    process_alp sample_repr sample_png alp_example_frame "Observation.value" = Ok a /\
    create_zip_output sample_repr sample_png alp_example_frame "lab_density_outputs.zip"
      true "Observation.value" =
      Ok [("alp_counts_synth.csv", fst a); ("alp_density_synth.png", snd a);
          ("ldl_counts_synth.csv", csv_header); ("ldl_density_synth.png", "")].
Proof.
  destruct (filter_lab_data alp_example_frame ["13457-7"; "53133-5"; "96258-9"; "69419-0"]
              "Observation.value") as [t|e] eqn:Ht; [|vm_compute in Ht; discriminate].
  destruct (process_alp sample_repr sample_png alp_example_frame "Observation.value")
    as [a|e] eqn:Ha; [|vm_compute in Ha; discriminate].
  assert (Hr : rows t = []) by (vm_compute in Ht; injection Ht as <-; reflexivity).
  exists t, a; split; [reflexivity|split; [exact Hr|split; [reflexivity|]]].
  destruct (proj1 (empty_category_run sample_repr sample_png alp_example_frame
                     "lab_density_outputs.zip" "Observation.value") t Ht Hr)
    as [_ [_ Hzip]].
  apply Hzip; exact Ha.
Defined.

(** C6: the CSV entries of a run depend on the input file only: two runs
    on the same file system give the same CSV entries, whatever bytes the
    image renderer produces in each run. *)
Theorem csv_entries_deterministic :
  forall parse_num parse_date fmt_float render1 render2 fs zip_writable,
  csv_entries (main parse_num parse_date fmt_float render1 fs zip_writable) =
  csv_entries (main parse_num parse_date fmt_float render2 fs zip_writable).
Proof.
  intros parse_num parse_date fmt_float render1 render2 fs zip_writable.
  unfold main; destruct (load_data parse_num parse_date fs _) as [ld|e]; cbn [bind];
    [|reflexivity].
  generalize (to_frame ld); intro df.
  unfold create_zip_output; destruct zip_writable; simpl; [|reflexivity].
  unfold process_alp, process_ldl, generate_row_group_density.
  destruct (filter_lab_data df ["109532-2"; "1783-0"; "59164-4"; "16337-8"] _)
    as [ta|e]; simpl; [|reflexivity].
  destruct (group_records ta _ 10) as [ga|e]; simpl; [|reflexivity].
  destruct (filter_lab_data df ["13457-7"; "53133-5"; "96258-9"; "69419-0"] _)
    as [tl|e]; simpl; [|reflexivity].
  destruct (group_records tl _ 10) as [gl|e]; simpl; reflexivity.
Qed.

(** ** Object identity *)

Lemma nth_error_alloc_old : forall (s : Heap.store) f j,
  j < List.length s -> nth_error (fst (Heap.alloc s f)) j = nth_error s j.
Proof. intros s f j Hj; simpl; apply nth_error_app1; exact Hj. Qed.

Lemma nth_error_alloc_new : forall (s : Heap.store) f,
  nth_error (fst (Heap.alloc s f)) (snd (Heap.alloc s f)) = Some f.
Proof.
  intros s f; simpl; rewrite nth_error_app2 by lia; rewrite Nat.sub_diag; reflexivity.
Qed.

(** C9: [filter_lab_data] leaves the caller's frame as it was: every
    object of the heap before the call, the input frame among them, is
    unchanged, and the result is a new object, different from the input,
    holding the filtered frame. *)
Theorem filter_leaves_input_unchanged : forall s df_id codes col s' rid,
  Heap.filter_lab_data_st s df_id codes col = Ok (s', rid) ->
  (forall j, j < List.length s -> nth_error s' j = nth_error s j) /\
  List.length s <= rid /\ rid <> df_id /\
  exists df t, nth_error s df_id = Some df /\
    filter_lab_data df codes col = Ok t /\ nth_error s' rid = Some t.
Proof.
  intros s df_id codes col s' rid H; unfold Heap.filter_lab_data_st in H.
  destruct (nth_error s df_id) as [df|] eqn:Hdf; [|discriminate].
  assert (Hid : df_id < List.length s) by (apply nth_error_Some; congruence).
  destruct (select_codes df codes) as [sel|e] eqn:Hsel; simpl in H; [|discriminate].
  rewrite nth_error_app2 in H by lia; rewrite Nat.sub_diag in H; simpl in H.
  destruct (select_positive sel col) as [pos|e] eqn:Hpos; simpl in H; [|discriminate].
  injection H as <- <-.
  assert (Hlen : List.length ((s ++ [sel]) ++ [sel]) = S (S (List.length s)))
    by (rewrite !length_app; simpl; lia).
  split; [|split; [|split]].
  - intros j Hj; rewrite !nth_error_app1 by (rewrite ?length_app; simpl; lia).
    reflexivity.
  - rewrite Hlen; lia.
  - rewrite Hlen; lia.
  - exists df, pos; split; [reflexivity|split].
    + unfold filter_lab_data; rewrite Hsel; exact Hpos.
    + rewrite nth_error_app2, Nat.sub_diag by lia; reflexivity.
Qed.

Lemma filter_leaves_input_unchanged_witness :
  exists s' rid,
    Heap.filter_lab_data_st [mixed_frame] 0 ["109532-2"; "1783-0"; "59164-4"; "16337-8"]
      "Observation.value" = Ok (s', rid) /\
    nth_error s' 0 = Some mixed_frame /\ rid <> 0.
Proof.
  destruct (Heap.filter_lab_data_st [mixed_frame] 0
              ["109532-2"; "1783-0"; "59164-4"; "16337-8"] "Observation.value")
    as [[s' rid]|e] eqn:H; [|vm_compute in H; discriminate].
  exists s', rid; split; [reflexivity|].
  destruct (filter_leaves_input_unchanged _ _ _ _ _ _ H) as [Hold [_ [Hne _]]].
  split; [apply (Hold 0); simpl; lia|exact Hne].
Defined.

(** ** Loading *)



Lemma nth_error_combine_some : forall {A B} (l1 : list A) (l2 : list B) j a b,
  nth_error l1 j = Some a -> nth_error l2 j = Some b ->
  nth_error (combine l1 l2) j = Some (a, b).
Proof.
  intros A B l1; induction l1 as [|x l1 IH]; intros [|y l2] j a b H1 H2;
    destruct j; simpl in *; try discriminate.
  - injection H1 as ->; injection H2 as ->; reflexivity.
  - apply IH; assumption.
Qed.



(** The outcome of [load_data] on a file that loads. *)
Lemma load_data_ok_eq : forall parse_num parse_date fs path f,
  fs path = Some f -> header f <> [] ->
  missing_dates (mangle_header (header f)) = [] ->
  first_long (data_width f) 3 (tl (records f)) = None ->
  load_data parse_num parse_date fs path =
    Ok (mkLoaded (mangle_header (header f))
          (map (row_cells_at (mangle_header (header f))
                  (load_columns parse_num parse_date (records f) (leading_cols f)
                     (mangle_header (header f))))
             (seq 0 (List.length (records f))))
          (if leading_cols f =? 0 then RangeIndex
           else LabelIndex (index_labels parse_num (records f) (leading_cols f)))).
Proof.
  intros parse_num parse_date fs path f Hfs Hh Hm Hl; unfold load_data.
  rewrite Hfs; destruct (header f) as [|h0 hs] eqn:Eh; [contradiction|].
  rewrite Hm, Hl; reflexivity.
Qed.

Lemma load_data_ok_inv : forall parse_num parse_date fs path ld,
  load_data parse_num parse_date fs path = Ok ld ->
  exists f, fs path = Some f /\ header f <> [] /\
    missing_dates (mangle_header (header f)) = [] /\
    first_long (data_width f) 3 (tl (records f)) = None /\
    ld = mkLoaded (mangle_header (header f))
          (map (row_cells_at (mangle_header (header f))
                  (load_columns parse_num parse_date (records f) (leading_cols f)
                     (mangle_header (header f))))
             (seq 0 (List.length (records f))))
          (if leading_cols f =? 0 then RangeIndex
           else LabelIndex (index_labels parse_num (records f) (leading_cols f))).
Proof.
  intros parse_num parse_date fs path ld H.
  destruct (fs path) as [f|] eqn:Hfs; [|unfold load_data in H; rewrite Hfs in H; discriminate].
  assert (Hh : header f <> []).
  { intros E; unfold load_data in H; rewrite Hfs, E in H; discriminate. }
  assert (Hm : missing_dates (mangle_header (header f)) = []).
  { unfold load_data in H; rewrite Hfs in H; destruct (header f); [contradiction|].
    destruct (missing_dates _); [reflexivity|discriminate]. }
  assert (Hl : first_long (data_width f) 3 (tl (records f)) = None).
  { unfold load_data in H; rewrite Hfs in H; destruct (header f); [contradiction|].
    rewrite Hm in H; destruct (first_long _ _ _); [discriminate|reflexivity]. }
  exists f; split; [reflexivity|split; [exact Hh|split; [exact Hm|split; [exact Hl|]]]].
  rewrite (load_data_ok_eq parse_num parse_date fs path f Hfs Hh Hm Hl) in H.
  injection H as <-; reflexivity.
Qed.

Lemma nth_error_load_columns_from : forall parse_num parse_date recs lead h k j c,
  nth_error h j = Some c ->
  nth_error (map (fun jn => load_column parse_num parse_date recs (lead + fst jn) (snd jn))
               (combine (seq k (List.length h)) h)) j =
  Some (load_column parse_num parse_date recs (lead + (k + j)) c).
Proof.
  intros parse_num parse_date recs lead h; induction h as [|x h IH]; intros k j c Hj;
    [destruct j; discriminate|].
  destruct j as [|j]; simpl in Hj |- *.
  - injection Hj as ->; rewrite Nat.add_0_r; reflexivity.
  - rewrite (IH (S k) j c Hj); do 3 f_equal; lia.
Qed.

Lemma nth_error_load_columns : forall parse_num parse_date recs lead names j c,
  nth_error names j = Some c ->
  nth_error (load_columns parse_num parse_date recs lead names) j =
  Some (load_column parse_num parse_date recs (lead + j) c).
Proof.
  intros; unfold load_columns; apply (nth_error_load_columns_from _ _ _ _ _ 0); assumption.
Qed.











Lemma filter_id : forall {A} (p : A -> bool) l,
  (forall x, In x l -> p x = true) -> filter p l = l.
Proof.
  intros A p l; induction l as [|x l IH]; intros H; simpl; [reflexivity|].
  rewrite (H x (or_introl eq_refl)), IH by (intros y Hy; apply H; right; exact Hy).
  reflexivity.
Qed.








(** * Further properties of the code *)

(** ** Sorting by index *)

Lemma insert_by_index_perm : forall r rs, Permutation (insert_by_index r rs) (r :: rs).
Proof.
  intros r rs; induction rs as [|x rs IH]; simpl; [reflexivity|].
  destruct (row_index r <=? row_index x); [reflexivity|].
  rewrite IH; apply perm_swap.
Qed.

Lemma sort_index_perm : forall rs, Permutation (sort_index rs) rs.
Proof.
  intros rs; induction rs as [|r rs IH]; simpl; [reflexivity|].
  rewrite insert_by_index_perm, IH; reflexivity.
Qed.

Lemma sort_index_length : forall rs, List.length (sort_index rs) = List.length rs.
Proof. intros; apply Permutation_length, sort_index_perm. Qed.

Lemma insert_by_index_sorted : forall r rs,
  StronglySorted index_le rs -> StronglySorted index_le (insert_by_index r rs).
Proof.
  intros r rs; induction rs as [|x rs IH]; intros H; simpl.
  - repeat constructor.
  - apply StronglySorted_inv in H as [Hs Hf].
    destruct (row_index r <=? row_index x) eqn:E.
    + apply Nat.leb_le in E; constructor; [constructor; assumption|].
      constructor; [exact E|]; rewrite Forall_forall in *; intros y Hy.
      specialize (Hf y Hy); unfold index_le in *; lia.
    + apply Nat.leb_gt in E; constructor; [apply IH, Hs|].
      apply Forall_forall; intros y Hy.
      apply (Permutation_in _ (insert_by_index_perm r rs)) in Hy.
      destruct Hy as [<-|Hy]; unfold index_le; [lia|].
      rewrite Forall_forall in Hf; apply Hf, Hy.
Qed.

Lemma sort_index_sorted_le : forall rs, StronglySorted index_le (sort_index rs).
Proof.
  intros rs; induction rs as [|r rs IH]; simpl; [constructor|].
  apply insert_by_index_sorted, IH.
Qed.

Lemma sorted_le_nodup_lt : forall rs,
  StronglySorted index_le rs -> NoDup (map row_index rs) -> StronglySorted index_lt rs.
Proof.
  intros rs; induction rs as [|r rs IH]; intros Hs Hnd; [constructor|].
  apply StronglySorted_inv in Hs as [Hs Hf]; simpl in Hnd.
  inversion Hnd as [|? ? Hr Hnd']; subst.
  constructor; [apply IH; assumption|].
  rewrite Forall_forall in *; intros y Hy; specialize (Hf y Hy); unfold index_le, index_lt in *.
  assert (row_index r <> row_index y) by (intros E; apply Hr; rewrite E; apply in_map, Hy).
  lia.
Qed.

Lemma sorted_lt_perm_eq : forall l1 l2,
  StronglySorted index_lt l1 -> StronglySorted index_lt l2 -> Permutation l1 l2 -> l1 = l2.
Proof.
  intros l1; induction l1 as [|a l1 IH]; intros l2 H1 H2 Hp.
  - symmetry; apply Permutation_nil, Hp.
  - destruct l2 as [|b l2]; [apply Permutation_sym, Permutation_nil in Hp; discriminate|].
    apply StronglySorted_inv in H1 as [H1 F1]; apply StronglySorted_inv in H2 as [H2 F2].
    rewrite Forall_forall in F1, F2.
    assert (a = b).
    { destruct (Permutation_in a Hp (or_introl eq_refl)) as [E|Ha]; [symmetry; exact E|].
      destruct (Permutation_in b (Permutation_sym Hp) (or_introl eq_refl)) as [E|Hb];
        [exact E|].
      specialize (F1 b Hb); specialize (F2 a Ha); unfold index_lt in *; lia. }
    subst b; f_equal; apply IH; [exact H1|exact H2|].
    apply (Permutation_cons_inv Hp).
Qed.

(** X6: [generate_row_group_density] sorts by index first, so the order of
    the rows in the frame does not matter when the labels are distinct:
    frames holding the same rows in any order give the same records. *)
Theorem group_records_row_order_irrelevant : forall t1 t2 col w,
  columns t1 = columns t2 -> Permutation (rows t1) (rows t2) ->
  NoDup (map row_index (rows t1)) ->
  group_records t1 col w = group_records t2 col w.
Proof.
  intros t1 t2 col w Hc Hp Hnd; unfold group_records; rewrite Hc.
  assert (Hps : Permutation (sort_index (rows t1)) (sort_index (rows t2))).
  { rewrite (sort_index_perm (rows t1)), (sort_index_perm (rows t2)); exact Hp. }
  assert (Hnd1 : NoDup (map row_index (sort_index (rows t1)))).
  { apply (Permutation_NoDup (Permutation_map row_index (Permutation_sym (sort_index_perm _)))).
    exact Hnd. }
  assert (Hnd2 : NoDup (map row_index (sort_index (rows t2)))).
  { apply (Permutation_NoDup (Permutation_map row_index Hps)), Hnd1. }
  rewrite (sorted_lt_perm_eq (sort_index (rows t1)) (sort_index (rows t2))); [reflexivity| | |exact Hps];
    apply sorted_le_nodup_lt; try apply sort_index_sorted_le; assumption.
Qed.

Lemma group_records_row_order_irrelevant_witness :
  group_records mixed_frame "Observation.value" 2 =
  group_records (mkFrame (columns mixed_frame) (rev (rows mixed_frame))) "Observation.value" 2.
Proof.
  apply group_records_row_order_irrelevant; [reflexivity|apply Permutation_rev|].
  vm_compute; repeat constructor; simpl; intuition discriminate.
Defined.

(** ** Edge behaviour *)

Lemma group_records_missing_column : forall t col w,
  0 < w -> rows t <> [] -> has_column col (columns t) = false ->
  group_records t col w = Err (KeyError col).
Proof.
  intros t col w Hw Hne Hcol; unfold group_records.
  set (rs := reset_index (sort_index (rows t))).
  assert (Hlen : List.length rs = List.length (rows t))
    by (unfold rs; rewrite reset_index_length, sort_index_length; reflexivity).
  destruct (List.length rs) as [|n] eqn:En;
    [destruct (rows t); [congruence|discriminate]|].
  unfold py_range; replace (w =? 0) with false by (symmetry; apply Nat.eqb_neq; lia).
  rewrite Nat.sub_0_r.
  replace (range_go (S n) 0 (S n) w) with (0 :: range_go n (0 + w) (S n) w) by reflexivity.
  assert (Hchunk : (List.length (iloc rs 0 (0 + w)) =? 0) = false).
  { apply Nat.eqb_neq; unfold iloc; rewrite skipn_O, length_firstn, En; lia. }
  cbn [bind chunk_loop]; rewrite Hchunk, Hcol; reflexivity.
Qed.

(** X1: [generate_row_group_density] raises [ValueError] for
    [rows_per_group = 0], whatever the frame; with a positive window, a
    frame without rows gives the header-only CSV and an empty image even
    when the value column is absent (the loop body never runs), and a frame
    with rows but without the value column raises [KeyError]. *)
Theorem generate_edge_cases : forall fmt_float render t col title xlabel,
  generate_row_group_density fmt_float render t col title xlabel 0 =
    Err (ValueError "range() arg 3 must not be zero") /\
  (forall w, 0 < w -> rows t = [] ->
     generate_row_group_density fmt_float render t col title xlabel w = Ok (csv_header, "")) /\
  (forall w, 0 < w -> rows t <> [] -> has_column col (columns t) = false ->
     generate_row_group_density fmt_float render t col title xlabel w = Err (KeyError col)).
Proof.
  intros fmt_float render t col title xlabel; split; [|split].
  - reflexivity.
  - intros w Hw Hr; unfold generate_row_group_density.
    rewrite group_records_no_rows by assumption; reflexivity.
  - intros w Hw Hne Hcol; unfold generate_row_group_density.
    rewrite group_records_missing_column by assumption; reflexivity.
Qed.

Lemma generate_edge_cases_witness :
  generate_row_group_density sample_repr sample_png (mkFrame [] []) "Observation.value"
    "t" "x" 10 = Ok (csv_header, "") /\
  generate_row_group_density sample_repr sample_png
    (mkFrame ["Observation.code"] [mkRow 0 [("Observation.code", CStr "1783-0")]])
    "Observation.value" "t" "x" 10 = Err (KeyError "Observation.value").
Proof.
  split.
  - apply (proj1 (proj2 (generate_edge_cases sample_repr sample_png (mkFrame [] [])
                           "Observation.value" "t" "x")) 10); [lia|reflexivity].
  - apply (proj2 (proj2 (generate_edge_cases sample_repr sample_png
             (mkFrame ["Observation.code"] [mkRow 0 [("Observation.code", CStr "1783-0")]])
             "Observation.value" "t" "x")) 10); [lia|discriminate|reflexivity].
Defined.

(** ** Errors and idempotence of [filter_lab_data] *)

Lemma select_gt0_type_error : forall col rs r,
  In r rs -> ~ numeric_cell (get_cell col r) -> select_gt0 col rs = Err TypeError.
Proof.
  intros col rs; induction rs as [|r0 rs IH]; intros r Hin Hbad; [destruct Hin|].
  simpl; destruct Hin as [->|Hin].
  - destruct (get_cell col r); simpl in Hbad |- *; tauto.
  - rewrite (IH r Hin Hbad).
    destruct (get_cell col r0); reflexivity.
Qed.

(** X2: [filter_lab_data] raises [KeyError] on a missing code column, then
    [KeyError] on a missing value column, and [TypeError] when a row with an
    accepted code holds text or a date in the value column. *)
Theorem filter_lab_data_errors : forall df codes col,
  (has_column code_col (columns df) = false ->
     filter_lab_data df codes col = Err (KeyError code_col)) /\
  (has_column code_col (columns df) = true -> has_column col (columns df) = false ->
     filter_lab_data df codes col = Err (KeyError col)) /\
  (forall r, has_column code_col (columns df) = true -> has_column col (columns df) = true ->
     In r (rows df) -> cell_isin codes (get_cell code_col r) = true ->
     ~ numeric_cell (get_cell col r) ->
     filter_lab_data df codes col = Err TypeError).
Proof.
  intros df codes col; unfold filter_lab_data, select_codes, select_positive;
    split; [|split].
  - intros H; rewrite H; reflexivity.
  - intros H1 H2; rewrite H1; simpl; rewrite H2; reflexivity.
  - intros r H1 H2 Hin Hc Hbad; rewrite H1; simpl; rewrite H2.
    rewrite (select_gt0_type_error col _ r); [reflexivity| |exact Hbad].
    apply filter_In; split; assumption.
Qed.

Lemma filter_lab_data_errors_witness :
  filter_lab_data (mkFrame ["Observation.value"] []) ["1783-0"] "Observation.value"
    = Err (KeyError code_col) /\
  filter_lab_data (mkFrame ["Observation.code"] []) ["1783-0"] "Observation.value"
    = Err (KeyError "Observation.value") /\
  filter_lab_data text_value_frame ["1783-0"] "Observation.value" = Err TypeError.
Proof.
  split; [|split].
  - apply (proj1 (filter_lab_data_errors _ _ _)); reflexivity.
  - apply (proj1 (proj2 (filter_lab_data_errors _ _ _))); reflexivity.
  - apply (proj2 (proj2 (filter_lab_data_errors text_value_frame ["1783-0"] "Observation.value"))
             (mkRow 1 [("Observation.code", CStr "1783-0"); ("Observation.value", CStr "high")]));
      [reflexivity|reflexivity|simpl; right; left; reflexivity|reflexivity|simpl; tauto].
Defined.

Lemma filter_lab_data_has_code_column : forall df codes col t,
  filter_lab_data df codes col = Ok t -> has_column code_col (columns df) = true.
Proof.
  intros df codes col t H.
  unfold filter_lab_data, select_codes, select_positive in H.
  destruct (has_column code_col (columns df)); simpl in H; [reflexivity|discriminate].
Qed.

(** X3: filtering an already filtered frame again with the same codes and
    column returns it unchanged. *)
Theorem filter_lab_data_idempotent : forall df codes col t,
  filter_lab_data df codes col = Ok t -> filter_lab_data t codes col = Ok t.
Proof.
  intros df codes col t H.
  pose proof (filter_lab_data_has_code_column _ _ _ _ H) as Hcode.
  pose proof (filter_lab_data_has_column _ _ _ _ H) as Hcol.
  destruct (filter_lab_data_spec _ _ _ _ H) as [Hcols _].
  assert (Hkeep : forall r, In r (rows t) -> keep_row codes col r = true).
  { intros r Hr; destruct (filter_lab_data_spec _ _ _ _ H) as [_ Hrows].
    rewrite Hrows in Hr; apply filter_In in Hr; tauto. }
  unfold filter_lab_data, select_codes, select_positive.
  rewrite Hcols, Hcode; simpl; rewrite Hcol.
  rewrite filter_id
    by (intros r Hr; specialize (Hkeep r Hr); unfold keep_row in Hkeep;
        apply andb_prop in Hkeep; tauto).
  rewrite select_gt0_total.
  - rewrite filter_id
      by (intros r Hr; specialize (Hkeep r Hr); unfold keep_row in Hkeep;
          apply andb_prop in Hkeep; tauto).
    rewrite <- Hcols; destruct t; reflexivity.
  - intros r Hr; destruct (filter_lab_data_numeric _ _ _ _ _ H Hr) as [q [Hq _]].
    rewrite Hq; exact I.
Qed.

Lemma filter_lab_data_idempotent_witness :
  exists t, filter_lab_data mixed_frame ["1783-0"; "59164-4"] "Observation.value" = Ok t /\
       filter_lab_data t ["1783-0"; "59164-4"] "Observation.value" = Ok t.
Proof.
  destruct (filter_lab_data mixed_frame ["1783-0"; "59164-4"] "Observation.value")
    as [t|e] eqn:H; [|vm_compute in H; discriminate].
  exists t; split; [reflexivity|].
  apply (filter_lab_data_idempotent mixed_frame _ _ t H).
Defined.

(** ** The aggregator on any frame *)

Lemma column_values_nan : forall col ch,
  (forall r, In r ch -> numeric_cell (get_cell col r)) ->
  column_values col ch = Ok (numeric_values col ch).
Proof.
  intros col ch; induction ch as [|r ch IH]; intros Hnum; simpl; [reflexivity|].
  rewrite IH by (intros; apply Hnum; right; assumption); simpl.
  specialize (Hnum r (or_introl eq_refl)).
  destruct (get_cell col r); simpl in Hnum; tauto || reflexivity.
Qed.

Lemma series_mean_window : forall col ch,
  (forall r, In r ch -> numeric_cell (get_cell col r)) ->
  series_mean col ch = Ok (window_mean col ch).
Proof.
  intros col ch Hnum; unfold series_mean, window_mean.
  rewrite column_values_nan by exact Hnum; simpl.
  destruct (numeric_values col ch); reflexivity.
Qed.

Lemma group_records_general : forall t col w,
  0 < w -> has_column col (columns t) = true ->
  (forall r, In r (rows t) -> numeric_cell (get_cell col r)) ->
  group_records t col w =
    Ok (combine (seq 0 (List.length (spec_windows w (sort_index (rows t)))))
          (map (window_mean col) (spec_windows w (sort_index (rows t))))).
Proof.
  intros t col w Hw Hcol Hnum; unfold group_records.
  rewrite reset_index_length, py_range_windows by exact Hw; simpl.
  set (l := sort_index (rows t)) in *; set (k := ceil_div (List.length l) w).
  assert (Hnum' : forall r, In r l -> numeric_cell (get_cell col r))
    by (intros r Hr; apply Hnum, sort_index_in, Hr).
  rewrite (chunk_loop_all _ _ _ _
             (fun s => window_mean col (firstn w (skipn s l))) _ Hw Hcol).
  - simpl; rewrite length_map, map_map; unfold spec_windows; fold k.
    rewrite map_map, !length_map, !length_seq; reflexivity.
  - intros s Hs; apply in_map_iff in Hs as [i [<- Hi]]; apply in_seq in Hi.
    unfold reset_index; rewrite reset_index_length.
    destruct (ceil_div_bounds (List.length l) w Hw) as [_ Hlt]; fold k in Hlt.
    assert (Hl : 0 < List.length l).
    { destruct (Nat.eq_dec (List.length l) 0) as [E|E]; [|lia].
      unfold k in Hi; rewrite E, ceil_div_zero in Hi by exact Hw; lia. }
    specialize (Hlt Hl); nia.
  - intros s Hs; apply in_map_iff in Hs as [i [<- Hi]]; apply in_seq in Hi.
    unfold iloc; replace (i * w + w - i * w) with w by lia.
    rewrite (series_mean_cells col _ (firstn w (skipn (i * w) l))).
    2:{ rewrite <- !firstn_map, <- !skipn_map.
        unfold reset_index; rewrite reset_index_from_cells; reflexivity. }
    apply series_mean_window.
    intros r Hr; apply Hnum'.
    apply in_firstn_list in Hr; apply in_skipn_list in Hr; exact Hr.
Qed.

(** X4: on any frame with distinct index labels whose value column holds
    numbers or [NaN], the records of [generate_row_group_density] are the
    consecutive windows of [rows_per_group] rows in index order, numbered
    from 0, each with the mean of its numbers, or [NaN] when the window has
    none. *)
Theorem group_records_window_means : forall t col w,
  NoDup (map row_index (rows t)) ->
  0 < w -> has_column col (columns t) = true ->
  (forall r, In r (rows t) -> numeric_cell (get_cell col r)) ->
  group_records t col w =
    Ok (combine (seq 0 (List.length (spec_windows w (sort_index (rows t)))))
          (map (window_mean col) (spec_windows w (sort_index (rows t))))).
Proof.
  intros t col w _ Hw Hcol Hnum; apply group_records_general; assumption.
Qed.

Lemma group_records_window_means_witness :
  group_records mixed_frame "Observation.value" 1 =
    Ok (combine (seq 0 (List.length (spec_windows 1 (sort_index (rows mixed_frame)))))
          (map (window_mean "Observation.value")
             (spec_windows 1 (sort_index (rows mixed_frame))))).
Proof.
  apply group_records_window_means;
    [vm_compute; repeat constructor; simpl; intuition discriminate|lia|reflexivity|].
  intros r Hr; vm_compute in Hr.
  repeat (destruct Hr as [<-|Hr]; [exact I|]); destruct Hr.
Defined.

(** ** Bounds of the group means *)

Lemma column_values_in : forall col ch vs v,
  column_values col ch = Ok vs -> In v vs ->
  exists r, In r ch /\ get_cell col r = CNum v.
Proof.
  intros col ch; induction ch as [|r ch IH]; intros vs v H Hv; simpl in H.
  - injection H as <-; destruct Hv.
  - destruct (column_values col ch) as [vs'|e] eqn:E; simpl in H; [|discriminate].
    destruct (get_cell col r) eqn:Ec; try discriminate; injection H as <-.
    + destruct Hv as [<-|Hv]; [exists r; split; [left; reflexivity|exact Ec]|].
      destruct (IH vs' v eq_refl Hv) as [x [Hx Hxc]]; exists x; split; [right|]; assumption.
    + destruct (IH vs' v eq_refl Hv) as [x [Hx Hxc]]; exists x; split; [right|]; assumption.
Qed.

Lemma inject_Z_succ : forall n,
  (inject_Z (Z.of_nat (S n)) == inject_Z (Z.of_nat n) + 1)%Q.
Proof.
  intros n; replace (Z.of_nat (S n)) with (Z.of_nat n + 1)%Z by lia.
  rewrite inject_Z_plus; reflexivity.
Qed.

Lemma Qsum_lower : forall lo xs, (forall x, In x xs -> lo <= x)%Q ->
  (lo * inject_Z (Z.of_nat (List.length xs)) <= Qsum xs)%Q.
Proof.
  intros lo xs; induction xs as [|x xs IH]; intros H.
  - unfold Qsum; simpl; rewrite Qmult_0_r; apply Qle_refl.
  - cbn [List.length]; unfold Qsum; cbn [fold_right]; fold (Qsum xs).
    rewrite inject_Z_succ, Qmult_plus_distr_r, Qmult_1_r, Qplus_comm.
    apply Qplus_le_compat; [apply H; left; reflexivity|].
    apply IH; intros; apply H; right; assumption.
Qed.

Lemma Qsum_upper : forall hi xs, (forall x, In x xs -> x <= hi)%Q ->
  (Qsum xs <= hi * inject_Z (Z.of_nat (List.length xs)))%Q.
Proof.
  intros hi xs; induction xs as [|x xs IH]; intros H.
  - unfold Qsum; simpl; rewrite Qmult_0_r; apply Qle_refl.
  - cbn [List.length]; unfold Qsum; cbn [fold_right]; fold (Qsum xs).
    rewrite inject_Z_succ, Qmult_plus_distr_r, Qmult_1_r, Qplus_comm.
    apply Qplus_le_compat; [|apply H; left; reflexivity].
    apply IH; intros; apply H; right; assumption.
Qed.

Lemma arith_mean_bounds : forall lo hi xs, xs <> [] ->
  (forall x, In x xs -> lo <= x <= hi)%Q ->
  (lo <= Qsum xs / inject_Z (Z.of_nat (List.length xs)) <= hi)%Q.
Proof.
  intros lo hi xs Hne H.
  assert (Hpos : (0 < inject_Z (Z.of_nat (List.length xs)))%Q).
  { destruct xs as [|x xs]; [congruence|].
    unfold Qlt, inject_Z; cbn [Qnum Qden List.length]; rewrite Z.mul_1_r; lia. }
  split.
  - apply Qle_shift_div_l; [exact Hpos|].
    apply Qsum_lower; intros; apply H; assumption.
  - apply Qle_shift_div_r; [exact Hpos|].
    apply Qsum_upper; intros; apply H; assumption.
Qed.

Lemma reset_sort_source : forall rs x,
  In x (reset_index (sort_index rs)) -> exists r, In r rs /\ row_cells x = row_cells r.
Proof.
  intros rs x Hx; destruct (reset_index_from_in _ _ _ Hx) as [r [Hr Hc]].
  exists r; split; [apply sort_index_in, Hr|exact Hc].
Qed.

(** X5: every group mean lies between the smallest and the largest value
    of the frame's value column: if all its numbers are in [[lo, hi]], so is
    every non-[NaN] mean written to the CSV. *)
Theorem group_means_within_bounds : forall t col w recs lo hi,
  (forall r q, In r (rows t) -> get_cell col r = CNum q -> lo <= q <= hi)%Q ->
  group_records t col w = Ok recs ->
  forall i q, In (i, Some q) recs -> (lo <= q <= hi)%Q.
Proof.
  intros t col w recs lo hi Hb H i q Hin; unfold group_records in H.
  destruct (py_range 0 _ w) as [starts|e]; simpl in H; [|discriminate].
  destruct (chunk_loop _ _ _ _ _) as [ms|e] eqn:Ec; simpl in H; [|discriminate].
  injection H as <-; apply in_combine_r in Hin.
  destruct (chunk_loop_sources _ _ _ _ _ _ Ec _ Hin) as [ch [_ [Hch Hm]]].
  unfold series_mean in Hm.
  destruct (column_values col ch) as [vs|e] eqn:Ev; [|discriminate].
  destruct vs as [|v vs']; [discriminate|].
  assert (Hq : Some q = Some (Qsum (v :: vs') /
                              inject_Z (Z.of_nat (List.length (v :: vs'))))%Q)
    by (simpl in Hm |- *; congruence).
  enough (HB : (lo <= Qsum (v :: vs') /
                 inject_Z (Z.of_nat (List.length (v :: vs'))) <= hi)%Q)
    by (simpl in Hq, HB |- *; injection Hq as ->; exact HB).
  apply arith_mean_bounds; [discriminate|].
  intros x Hx; destruct (column_values_in _ _ _ _ Ev Hx) as [r [Hr Hrc]].
  destruct (reset_sort_source _ _ (Hch r Hr)) as [r0 [Hr0 Hc]].
  apply (Hb r0); [exact Hr0|].
  rewrite <- (get_cell_cells col r r0 Hc); exact Hrc.
Qed.

Lemma group_means_within_bounds_witness :
  exists recs, group_records alp_example_frame "Observation.value" 10 = Ok recs /\
    recs <> [] /\ (forall i q, In (i, Some q) recs -> (1 <= q <= 25)%Q).
Proof.
  destruct (group_records alp_example_frame "Observation.value" 10) as [recs|e] eqn:H;
    [|vm_compute in H; discriminate].
  exists recs; split; [reflexivity|split; [vm_compute in H; injection H as <-; discriminate|]].
  apply (group_means_within_bounds alp_example_frame "Observation.value" 10 recs 1%Q 25%Q);
    [|exact H].
  intros r q Hr Hq; vm_compute in Hr.
  repeat (destruct Hr as [<-|Hr];
          [vm_compute in Hq; injection Hq as <-; split; vm_compute; discriminate|]);
    destruct Hr.
Defined.

(** ** Totals *)

Lemma Qsum_app : forall a b, (Qsum (app a b) == Qsum a + Qsum b)%Q.
Proof.
  intros a b; induction a as [|x a IH]; unfold Qsum in *; simpl.
  - rewrite Qplus_0_l; reflexivity.
  - rewrite IH, Qplus_assoc; reflexivity.
Qed.

Lemma Qsum_perm : forall a b, Permutation a b -> (Qsum a == Qsum b)%Q.
Proof.
  intros a b H; induction H; unfold Qsum in *; simpl.
  - reflexivity.
  - rewrite IHPermutation; reflexivity.
  - rewrite !Qplus_assoc, (Qplus_comm y x); reflexivity.
  - rewrite IHPermutation1; exact IHPermutation2.
Qed.

Lemma Qsum_map_ext : forall {A} (f g : A -> Q) l,
  (forall x, In x l -> f x == g x)%Q -> (Qsum (map f l) == Qsum (map g l))%Q.
Proof.
  intros A f g l; induction l as [|x l IH]; intros H; unfold Qsum in *; simpl;
    [reflexivity|].
  apply Qplus_comp; [apply H; left; reflexivity|].
  apply IH; intros; apply H; right; assumption.
Qed.

Lemma numeric_values_app : forall col a b,
  numeric_values col (app a b) = app (numeric_values col a) (numeric_values col b).
Proof.
  intros col a b; induction a as [|r a IH]; simpl; [reflexivity|].
  destruct (get_cell col r); rewrite ?IH; reflexivity.
Qed.

Lemma numeric_values_perm : forall col a b,
  Permutation a b -> Permutation (numeric_values col a) (numeric_values col b).
Proof.
  intros col a b H; induction H; simpl.
  - constructor.
  - destruct (get_cell col x); auto.
  - destruct (get_cell col x), (get_cell col y); auto using perm_swap, Permutation_refl.
  - eapply Permutation_trans; eassumption.
Qed.

Lemma Qsum_numeric_concat : forall col ws,
  (Qsum (numeric_values col (List.concat ws)) ==
   Qsum (map (fun win => Qsum (numeric_values col win)) ws))%Q.
Proof.
  intros col ws; induction ws as [|win ws IH]; simpl; [reflexivity|].
  rewrite numeric_values_app, Qsum_app, IH; unfold Qsum at 3; simpl; reflexivity.
Qed.

Lemma window_weight : forall col win,
  (inject_Z (Z.of_nat (List.length (numeric_values col win))) *
     mean_value (window_mean col win) == Qsum (numeric_values col win))%Q.
Proof.
  intros col win; unfold window_mean.
  destruct (numeric_values col win) as [|v vs] eqn:E; [reflexivity|].
  unfold mean_value, arith_mean.
  apply Qmult_div_r.
  unfold Qeq, inject_Z; cbn [Qnum Qden List.length]; lia.
Qed.

Lemma map_combine_windows : forall {B} (G : list row -> option Q -> B)
    (g : list row -> option Q) ws k,
  map (fun p => G (fst p) (snd (snd p)))
    (combine ws (combine (seq k (List.length ws)) (map g ws))) =
  map (fun win => G win (g win)) ws.
Proof.
  intros B G g ws; induction ws as [|win ws IH]; intros k; simpl; [reflexivity|].
  rewrite IH; reflexivity.
Qed.

(** X7: no value is lost or counted twice by the grouping: the group means,
    each weighted by the number of values of its window, add up to the total
    of the value column. *)
Theorem group_means_conserve_total : forall t col w recs,
  0 < w -> has_column col (columns t) = true ->
  (forall r, In r (rows t) -> numeric_cell (get_cell col r)) ->
  group_records t col w = Ok recs ->
  (Qsum (map (fun p => inject_Z (Z.of_nat (List.length (numeric_values col (fst p)))) *
                         mean_value (snd (snd p)))
           (combine (spec_windows w (sort_index (rows t))) recs))
   == Qsum (numeric_values col (rows t)))%Q.
Proof.
  intros t col w recs Hw Hcol Hnum H.
  rewrite group_records_general in H by assumption; injection H as <-.
  set (l := sort_index (rows t)); set (ws := spec_windows w l).
  rewrite (map_combine_windows
             (fun win m => inject_Z (Z.of_nat (List.length (numeric_values col win))) *
                           mean_value m)%Q).
  transitivity (Qsum (map (fun win => Qsum (numeric_values col win)) ws)).
  { apply Qsum_map_ext; intros win _; apply window_weight. }
  transitivity (Qsum (numeric_values col (List.concat ws))).
  { symmetry; apply Qsum_numeric_concat. }
  assert (Hc : List.concat ws = l).
  { unfold ws, spec_windows; apply concat_spec_windows; [exact Hw|].
    apply (ceil_div_bounds (List.length l) w Hw). }
  rewrite Hc; apply Qsum_perm, numeric_values_perm.
  unfold l; apply sort_index_perm.
Qed.

Lemma group_means_conserve_total_witness :
  exists recs : list record, group_records mixed_frame "Observation.value" 2 = Ok recs /\
  (Qsum (map (fun p => inject_Z (Z.of_nat (List.length (numeric_values "Observation.value" (fst p)))) *
                         mean_value (snd (snd p)))
           (combine (spec_windows 2 (sort_index (rows mixed_frame))) recs))
   == Qsum (numeric_values "Observation.value" (rows mixed_frame)))%Q.
Proof.
  destruct (group_records mixed_frame "Observation.value" 2) as [recs|e] eqn:H;
    [|vm_compute in H; discriminate].
  exists recs; split; [reflexivity|].
  apply (group_means_conserve_total mixed_frame _ _ recs); [lia|reflexivity| |exact H].
  intros r Hr; vm_compute in Hr.
  repeat (destruct Hr as [<-|Hr]; [exact I|]); destruct Hr.
Defined.

(** ** The CSV text *)

Lemma count_char_append : forall c s1 s2,
  count_char c (String.append s1 s2) = count_char c s1 + count_char c s2.
Proof.
  intros c s1 s2; induction s1 as [|a s1 IH]; simpl; [reflexivity|].
  rewrite IH; lia.
Qed.

Lemma digit_char_neq : forall c k, k < 10 ->
  nat_of_ascii c < 48 \/ 57 < nat_of_ascii c ->
  Ascii.eqb (ascii_of_nat (48 + k)) c = false.
Proof.
  intros c k Hk Hc; apply Ascii.eqb_neq; intros E.
  rewrite <- E, nat_ascii_embedding in Hc by lia; lia.
Qed.

Lemma count_nondigit_digits_go : forall c fuel n acc,
  nat_of_ascii c < 48 \/ 57 < nat_of_ascii c ->
  count_char c (digits_go fuel n acc) = count_char c acc.
Proof.
  intros c fuel; induction fuel as [|fuel IH]; intros n acc Hc; cbn [digits_go];
    [reflexivity|].
  assert (Hd : count_char c (String (ascii_of_nat (48 + n mod 10)) acc) =
               count_char c acc).
  { cbn [count_char]; rewrite digit_char_neq by (try apply Nat.mod_upper_bound; lia).
    reflexivity. }
  destruct (n <? 10); [exact Hd|rewrite IH by exact Hc; exact Hd].
Qed.

Lemma newline_char_code : nat_of_ascii newline_char = 10.
Proof. unfold newline_char; apply nat_ascii_embedding; lia. Qed.

Lemma count_newline_digits_go : forall fuel n acc,
  count_char newline_char (digits_go fuel n acc) = count_char newline_char acc.
Proof.
  intros; apply count_nondigit_digits_go; rewrite newline_char_code; lia.
Qed.

Lemma count_newline_csv_line : forall fmt_float r,
  (forall q, count_char newline_char (fmt_float q) = 0) ->
  count_char newline_char (csv_line fmt_float r) = 1.
Proof.
  intros fmt_float [i m] Hf; unfold csv_line, str_of_nat; cbn [fst snd].
  rewrite !count_char_append, count_newline_digits_go.
  destruct m as [q|]; cbn [fmt_mean]; [rewrite Hf|]; reflexivity.
Qed.

Lemma to_csv_newlines : forall fmt_float grouped,
  (forall q, count_char newline_char (fmt_float q) = 0) ->
  count_char newline_char (to_csv fmt_float grouped) = S (List.length grouped).
Proof.
  intros fmt_float grouped Hf; unfold to_csv.
  rewrite count_char_append; change (count_char newline_char csv_header) with 1.
  induction grouped as [|r grouped IH]; simpl; [reflexivity|].
  rewrite count_char_append, count_newline_csv_line by exact Hf.
  simpl in IH; lia.
Qed.

(** X8: when the float formatter writes no line break, the CSV written by
    [generate_row_group_density] has exactly one line per group after the
    header line. *)
Theorem to_csv_line_count : forall fmt_float grouped,
  (forall q, count_char newline_char (fmt_float q) = 0) ->
  count_char newline_char (to_csv fmt_float grouped) = S (List.length grouped).
Proof. intros; apply to_csv_newlines; assumption. Qed.

Lemma to_csv_line_count_witness :
  count_char newline_char
    (to_csv (fun _ => "1.5") [(0, Some 1.5%Q); (1, None); (2, Some 3%Q)]) = 4.
Proof.
  apply to_csv_line_count; intros q; reflexivity.
Defined.

Lemma digit_of_digit : forall k, k < 10 -> digit_of (ascii_of_nat (48 + k)) = Some k.
Proof.
  intros k Hk; unfold digit_of; rewrite nat_ascii_embedding by lia.
  replace ((48 <=? 48 + k) && (48 + k <=? 57)) with true
    by (symmetry; apply andb_true_intro; split; apply Nat.leb_le; lia).
  f_equal; lia.
Qed.

Lemma parse_digits_go : forall fuel n acc, n < fuel ->
  parse_digits 0 (digits_go fuel n acc) = parse_digits n acc.
Proof.
  intros fuel; induction fuel as [|fuel IH]; intros n acc Hn; [lia|].
  cbn [digits_go].
  assert (Hm : n mod 10 < 10) by (apply Nat.mod_upper_bound; lia).
  destruct (n <? 10) eqn:E.
  - apply Nat.ltb_lt in E; cbn [parse_digits]; rewrite digit_of_digit by exact Hm.
    rewrite Nat.mod_small by exact E; reflexivity.
  - apply Nat.ltb_ge in E.
    rewrite IH by (pose proof (Nat.div_lt n 10 ltac:(lia) ltac:(lia)); lia).
    cbn [parse_digits]; rewrite digit_of_digit by exact Hm.
    rewrite (Nat.mul_comm (n / 10) 10), <- Nat.div_mod by lia; reflexivity.
Qed.

(** X9: the [group_index] field written to the CSV is the decimal text of
    the index: it reads back as the same number, and it holds no comma and
    no line break, so it never splits a field or a line. *)
Theorem group_index_field_round_trip : forall i,
  parse_digits 0 (str_of_nat i) = Some i /\
  count_char "," (str_of_nat i) = 0 /\ count_char newline_char (str_of_nat i) = 0.
Proof.
  intros i; split; [|split].
  - unfold str_of_nat; rewrite parse_digits_go by lia; reflexivity.
  - unfold str_of_nat; rewrite count_nondigit_digits_go; [reflexivity|].
    left; apply Nat.ltb_lt; reflexivity.
  - unfold str_of_nat; rewrite count_newline_digits_go; reflexivity.
Qed.

(** ** [load_data]: record widths and row shape *)










(** ** Number of groups *)

Lemma ceil_div_one : forall n w, 0 < n -> n <= w -> ceil_div n w = 1.
Proof.
  intros n w Hn Hw; unfold ceil_div.
  replace (n + w - 1) with (1 * w + (n - 1)) by lia.
  rewrite Nat.div_add_l by lia; rewrite Nat.div_small by lia; reflexivity.
Qed.

Lemma Qplus_comm_eq : forall a b : Q, (a + b)%Q = (b + a)%Q.
Proof.
  intros [an ad] [bn bd]; unfold Qplus; cbn [Qnum Qden].
  f_equal; [ring|apply Pos.mul_comm].
Qed.

Lemma Qplus_assoc_eq : forall a b c : Q, (a + (b + c))%Q = (a + b + c)%Q.
Proof.
  intros [an ad] [bn bd] [cn cd]; unfold Qplus; cbn [Qnum Qden].
  rewrite !Pos2Z.inj_mul; f_equal; [ring|apply Pos.mul_assoc].
Qed.

Lemma Qsum_perm_eq : forall a b, Permutation a b -> Qsum a = Qsum b.
Proof.
  intros a b H; induction H; unfold Qsum in *; simpl.
  - reflexivity.
  - rewrite IHPermutation; reflexivity.
  - rewrite !Qplus_assoc_eq, (Qplus_comm_eq y x); reflexivity.
  - rewrite IHPermutation1; exact IHPermutation2.
Qed.

Lemma window_mean_perm : forall col a b, Permutation a b ->
  window_mean col a = window_mean col b.
Proof.
  intros col a b H; unfold window_mean.
  pose proof (numeric_values_perm col a b H) as Hp.
  destruct (numeric_values col a) as [|x xs] eqn:Ea,
           (numeric_values col b) as [|y ys] eqn:Eb.
  - reflexivity.
  - apply Permutation_nil in Hp; discriminate.
  - apply Permutation_sym, Permutation_nil in Hp; discriminate.
  - unfold arith_mean; rewrite (Qsum_perm_eq _ _ Hp), (Permutation_length Hp).
    reflexivity.
Qed.

(** X12: when [rows_per_group] is at least the number of rows of a
    non-empty frame, there is one group, numbered 0, whose mean is the mean
    of the whole value column. *)
Theorem group_records_single_group : forall t col w,
  0 < List.length (rows t) -> List.length (rows t) <= w ->
  has_column col (columns t) = true ->
  (forall r, In r (rows t) -> numeric_cell (get_cell col r)) ->
  group_records t col w = Ok [(0, window_mean col (rows t))].
Proof.
  intros t col w Hn Hw Hcol Hnum.
  rewrite group_records_general by (auto; lia).
  unfold spec_windows; rewrite sort_index_length, ceil_div_one by assumption.
  cbn [seq map List.length]; rewrite Nat.mul_0_l, skipn_O.
  rewrite firstn_all2 by (rewrite sort_index_length; exact Hw).
  rewrite (window_mean_perm col _ _ (sort_index_perm (rows t))); reflexivity.
Qed.

Lemma group_records_single_group_witness :
  group_records mixed_frame "Observation.value" 10 =
    Ok [(0, window_mean "Observation.value" (rows mixed_frame))].
Proof.
  apply group_records_single_group; [vm_compute; lia|vm_compute; lia|reflexivity|].
  intros r Hr; vm_compute in Hr.
  repeat (destruct Hr as [<-|Hr]; [exact I|]); destruct Hr.
Defined.

Lemma generate_csv_lines_filtered : forall fmt_float render df codes col t title xlabel w a,
  (forall q, count_char newline_char (fmt_float q) = 0) -> 0 < w ->
  filter_lab_data df codes col = Ok t ->
  generate_row_group_density fmt_float render t col title xlabel w = Ok a ->
  count_char newline_char (fst a) = S (ceil_div (List.length (rows t)) w).
Proof.
  intros fmt_float render df codes col t title xlabel w a Hf Hw Ht H.
  unfold generate_row_group_density in H.
  destruct (filter_lab_data_spec _ _ _ _ Ht) as [Hcols _].
  rewrite group_records_general in H.
  - cbn [bind] in H; injection H as <-; cbn [fst].
    rewrite to_csv_newlines by exact Hf.
    erewrite (length_combine (seq _ _) (map (window_mean col) _)).
    rewrite length_seq, length_map, Nat.min_id.
    rewrite length_spec_windows, sort_index_length; reflexivity.
  - exact Hw.
  - rewrite Hcols; apply (filter_lab_data_has_column _ _ _ _ Ht).
  - intros r Hr; destruct (filter_lab_data_numeric _ _ _ _ _ Ht Hr) as [q [Hq _]].
    rewrite Hq; exact I.
Qed.

(** X13: the CSV of each category has a header line and then
    [ceil(N / 10)] lines, [N] being the number of rows kept by
    [filter_lab_data] for that category (float text without line breaks). *)
Theorem category_csv_line_count : forall fmt_float render df col,
  (forall q, count_char newline_char (fmt_float q) = 0) ->
  (forall t a, filter_lab_data df ["109532-2"; "1783-0"; "59164-4"; "16337-8"] col = Ok t ->
     process_alp fmt_float render df col = Ok a ->
     count_char newline_char (fst a) = S (ceil_div (List.length (rows t)) 10)) /\
  (forall t l, filter_lab_data df ["13457-7"; "53133-5"; "96258-9"; "69419-0"] col = Ok t ->
     process_ldl fmt_float render df col = Ok l ->
     count_char newline_char (fst l) = S (ceil_div (List.length (rows t)) 10)).
Proof.
  intros fmt_float render df col Hf; split.
  - intros t a Ht Ha; destruct (process_alp_inv _ _ _ _ _ Ha) as [t' [Ht' Hg]].
    rewrite Ht in Ht'; injection Ht' as <-.
    eapply generate_csv_lines_filtered; [exact Hf|lia|exact Ht|exact Hg].
  - intros t l Ht Hl; destruct (process_ldl_inv _ _ _ _ _ Hl) as [t' [Ht' Hg]].
    rewrite Ht in Ht'; injection Ht' as <-.
    eapply generate_csv_lines_filtered; [exact Hf|lia|exact Ht|exact Hg].
Qed.

Lemma category_csv_line_count_witness :
  exists t a, filter_lab_data alp_example_frame ["109532-2"; "1783-0"; "59164-4"; "16337-8"]
                "Observation.value" = Ok t /\
    process_alp sample_repr sample_png alp_example_frame "Observation.value" = Ok a /\
    count_char newline_char (fst a) = S (ceil_div (List.length (rows t)) 10).
Proof.
  destruct (filter_lab_data alp_example_frame ["109532-2"; "1783-0"; "59164-4"; "16337-8"]
              "Observation.value") as [t|e] eqn:Ht; [|vm_compute in Ht; discriminate].
  destruct (process_alp sample_repr sample_png alp_example_frame "Observation.value")
    as [a|e] eqn:Ha; [|vm_compute in Ha; discriminate].
  exists t, a; split; [reflexivity|split; [reflexivity|]].
  apply (proj1 (category_csv_line_count sample_repr sample_png alp_example_frame
                  "Observation.value" (fun q => eq_refl)) t a Ht Ha).
Defined.

(** ** Missing fields and code sets *)

Lemma nth_map_fields_nan : forall (g : option string -> cell) recs j i rec,
  g None = CNA -> nth_error recs i = Some rec -> field_at j rec = None ->
  nth i (map g (map (field_at j) recs)) CNA = CNA.
Proof.
  intros g recs j i rec Hg Hi Hf; apply nth_error_nth.
  rewrite !nth_error_map, Hi; cbn; rewrite Hf, Hg; reflexivity.
Qed.

Lemma load_column_nan : forall parse_num parse_date recs j c i rec,
  nth_error recs i = Some rec -> field_at j rec = None ->
  nth i (load_column parse_num parse_date recs j c) CNA = CNA.
Proof.
  intros parse_num parse_date recs j c i rec Hi Hf.
  unfold load_column, convert_dates, infer_column.
  repeat match goal with |- context [if ?b then _ else _] => destruct b end;
    apply (nth_map_fields_nan _ _ _ _ _ eq_refl Hi Hf).
Qed.

(** X14: an empty field of the CSV file is read as [NaN], whatever the type
    the loader gives its column (number, text or date). *)
Theorem load_data_empty_field_nan : forall parse_num parse_date fs path ld f i rec j c,
  fs path = Some f -> load_data parse_num parse_date fs path = Ok ld ->
  nth_error (records f) i = Some rec -> nth_error (ld_columns ld) j = Some c ->
  field_at (leading_cols f + j) rec = None ->
  exists cs, nth_error (ld_cells ld) i = Some cs /\ nth_error cs j = Some (c, CNA).
Proof.
  intros parse_num parse_date fs path ld f i rec j c Hfs H Hi Hj Hf.
  destruct (load_data_ok_inv _ _ _ _ _ H) as [f' [Hfs' [_ [_ [_ ->]]]]].
  rewrite Hfs in Hfs'; injection Hfs' as <-; cbn [ld_columns ld_cells] in *.
  assert (Hlt : i < List.length (records f))
    by (apply nth_error_Some; rewrite Hi; discriminate).
  rewrite nth_error_map, nth_error_seq.
  replace (i <? List.length (records f)) with true by (symmetry; apply Nat.ltb_lt; exact Hlt).
  eexists; split; [reflexivity|]; cbn [Nat.add].
  unfold row_cells_at; rewrite nth_error_map.
  rewrite (nth_error_combine_some _ _ _ _ _ Hj
             (nth_error_load_columns parse_num parse_date (records f) (leading_cols f) _ j c Hj)).
  cbn; rewrite (load_column_nan _ _ _ _ _ _ _ Hi Hf); reflexivity.
Qed.

Lemma load_data_empty_field_nan_witness :
  exists ld cs, load_data parse_unsigned parse_iso_date wellformed_fs "synth_dataset.csv" = Ok ld /\
    nth_error (ld_cells ld) 0 = Some cs /\
    nth_error cs 2 =
      Some ("Observation.effective.x.extension.QuelleKlinischesBezugsdatum", CNA).
Proof.
  destruct (load_data parse_unsigned parse_iso_date wellformed_fs "synth_dataset.csv")
    as [ld|e] eqn:H; [|vm_compute in H; discriminate].
  assert (Hj : nth_error (ld_columns ld) 2 =
                 Some "Observation.effective.x.extension.QuelleKlinischesBezugsdatum")
    by (vm_compute in H; injection H as <-; reflexivity).
  destruct (load_data_empty_field_nan parse_unsigned parse_iso_date wellformed_fs
              "synth_dataset.csv" ld _ 0 _ 2 _ eq_refl H eq_refl Hj eq_refl)
    as [cs [Hr Hc]].
  exists ld, cs; split; [reflexivity|split; assumption].
Defined.

Lemma cell_isin_ext : forall c1 c2 v, (forall s, In s c1 <-> In s c2) ->
  cell_isin c1 v = cell_isin c2 v.
Proof.
  intros c1 c2 [s| | |] H; simpl; try reflexivity.
  destruct (existsb (String.eqb s) c1) eqn:E1, (existsb (String.eqb s) c2) eqn:E2;
    try reflexivity.
  - apply existsb_exists in E1 as [x [Hx Hs]]; apply String.eqb_eq in Hs; subst x.
    apply H in Hx.
    assert (existsb (String.eqb s) c2 = true)
      by (apply existsb_exists; exists s; split; [exact Hx|apply String.eqb_refl]).
    congruence.
  - apply existsb_exists in E2 as [x [Hx Hs]]; apply String.eqb_eq in Hs; subst x.
    apply H in Hx.
    assert (existsb (String.eqb s) c1 = true)
      by (apply existsb_exists; exists s; split; [exact Hx|apply String.eqb_refl]).
    congruence.
Qed.

(** X15: [filter_lab_data] depends on its code list only as a set: two
    lists with the same members, in any order and with any repetitions,
    give the same result, error included. *)
Theorem filter_lab_data_code_set : forall df c1 c2 col,
  (forall s, In s c1 <-> In s c2) ->
  filter_lab_data df c1 col = filter_lab_data df c2 col.
Proof.
  intros df c1 c2 col H; unfold filter_lab_data, select_codes.
  rewrite (filter_ext (fun r => cell_isin c1 (get_cell code_col r))
                      (fun r => cell_isin c2 (get_cell code_col r)))
    by (intros r; apply cell_isin_ext, H).
  reflexivity.
Qed.

Lemma filter_lab_data_code_set_witness :
  filter_lab_data mixed_frame ["1783-0"; "59164-4"] "Observation.value" =
  filter_lab_data mixed_frame ["59164-4"; "1783-0"; "59164-4"] "Observation.value".
Proof.
  apply filter_lab_data_code_set; intros s; simpl; tauto.
Defined.

(** ** Column names and the index of the loaded frame *)





